(** * vtctldclient query commands (go/cmd/vtctldclient/command/query.go)

    A shallow embedding of the four command handlers
    [commandExecuteFetchAsApp], [commandExecuteFetchAsDBA],
    [commandExecuteMultiFetchAsDBA] and [commandGetUnresolvedTransactions],
    together with the flag registration of [init].

    The handlers are sequential Go functions with effects on the outside
    world: the argument-parsing checkpoint, one gRPC call, and writes to
    the output stream.  They are embedded in a small monad that records
    every effect in a chronological trace and carries Go's [error] return
    value; the trace survives a failure, so that what had been written
    before an error is observable. *)

From Stdlib Require Import String Ascii List ZArith NArith Bool Arith Lia.
Import ListNotations.
Local Open Scope string_scope.
Local Open Scope list_scope.

(** ** Errors *)

(** Modelled from the spec: the error taxonomy of section 7.  Go's [error]
    values are opaque to query.go, which only ever passes them on; the
    payload is the message. *)
Inductive error : Type :=
| MalformedIdentity (token : string)
| TransportOrServerError (msg : string)
| EncodingError (msg : string).

(** A Go result pair [(v, err)]: either [err != nil] or a value. *)
Inductive outcome (A : Type) : Type :=
| Ok (a : A)
| Err (e : error).
Arguments Ok {A} a.
Arguments Err {A} e.

Definition isOk {A : Type} (r : outcome A) : bool :=
  match r with Ok _ => true | Err _ => false end.

(** ** Target identity *)

Module topodatapb.

(** The two parts of a tablet alias: a cell name and a numeric id. *)
Record TabletAlias : Type := mkTabletAlias {
  Cell : string;
  Uid : N
}.

End topodatapb.

Module topoproto.

(** [strings.Split(s, sep)] for a one-character separator: the pieces
    between the separators, so a string with [n] separators gives
    [n + 1] pieces. *)
Fixpoint Split (sep : ascii) (s : string) : list string :=
  match s with
  | EmptyString => [EmptyString]
  | String c rest =>
      if Ascii.eqb c sep then EmptyString :: Split sep rest
      else match Split sep rest with
           | [] => [String c EmptyString]
           | piece :: pieces => String c piece :: pieces
           end
  end.

Definition isDigit (c : ascii) : bool :=
  let n := nat_of_ascii c in (48 <=? n)%nat && (n <=? 57)%nat.

Fixpoint allDigits (s : string) : bool :=
  match s with
  | EmptyString => true
  | String c rest => isDigit c && allDigits rest
  end.

Definition isNumeric (s : string) : bool :=
  negb (String.eqb s EmptyString) && allDigits s.

Fixpoint decimal (acc : N) (s : string) : N :=
  match s with
  | EmptyString => acc
  | String c rest => decimal (10 * acc + (N_of_ascii c - 48))%N rest
  end.

(** Modelled from the spec: [topoproto.ParseTabletAlias] lives in
    go/vt/topo/topoproto, outside this file.  Sections 4.1, 6 and 8:
    [ParseIdentity(token) -> Identity | MalformedIdentity error]; the
    token has the two-part shape cell, separator, numeric id (as in
    [zone1-0000000100]); a token with a missing separator or a
    non-numeric id is rejected with [MalformedIdentity]. *)
Definition ParseTabletAlias (aliasStr : string)
  : outcome topodatapb.TabletAlias :=
  match Split "-" aliasStr with
  | [cell; uid] =>
      if isNumeric uid
      then Ok {| topodatapb.Cell := cell; topodatapb.Uid := decimal 0 uid |}
      else Err (MalformedIdentity aliasStr)
  | _ => Err (MalformedIdentity aliasStr)
  end.

(** Modelled from the spec: the well-formedness of a token as section 8
    words it, stated on the token itself and not through the parser:
    exactly one separator, and a numeric id after it. *)
Fixpoint separators (s : string) : nat :=
  match s with
  | EmptyString => 0
  | String c rest =>
      if Ascii.eqb c "-" then S (separators rest) else separators rest
  end.

Fixpoint afterSeparator (s : string) : string :=
  match s with
  | EmptyString => EmptyString
  | String c rest => if Ascii.eqb c "-" then rest else afterSeparator rest
  end.

Definition wellFormed (token : string) : bool :=
  (separators token =? 1)%nat && isNumeric (afterSeparator token).

End topoproto.

(** ** Request and reply messages (vtctldatapb)

    The request structs carry the fields that the composite literals of
    query.go set; [int64] is [Z] (the row cap is only stored and passed
    on, never computed with). *)

Module ExecuteFetchAsAppRequest.
Record t : Type := mk {
  TabletAlias : topodatapb.TabletAlias;
  Query : string;
  MaxRows : Z;
  UsePool : bool
}.
End ExecuteFetchAsAppRequest.

Module ExecuteFetchAsDBARequest.
Record t : Type := mk {
  TabletAlias : topodatapb.TabletAlias;
  Query : string;
  MaxRows : Z;
  DisableBinlogs : bool;
  ReloadSchema : bool
}.
End ExecuteFetchAsDBARequest.

Module ExecuteMultiFetchAsDBARequest.
Record t : Type := mk {
  TabletAlias : topodatapb.TabletAlias;
  Sql : string;
  MaxRows : Z;
  DisableBinlogs : bool;
  ReloadSchema : bool
}.
End ExecuteMultiFetchAsDBARequest.

Module GetUnresolvedTransactionsRequest.
Record t : Type := mk {
  Keyspace : string
}.
End GetUnresolvedTransactionsRequest.

(** The request of one remote call, tagged with the operation. *)
Inductive Request : Type :=
| ReqExecuteFetchAsApp (r : ExecuteFetchAsAppRequest.t)
| ReqExecuteFetchAsDBA (r : ExecuteFetchAsDBARequest.t)
| ReqExecuteMultiFetchAsDBA (r : ExecuteMultiFetchAsDBARequest.t)
| ReqGetUnresolvedTransactions (r : GetUnresolvedTransactionsRequest.t).

(** The value a request field holds. *)
Inductive FieldValue : Type :=
| VAlias (a : topodatapb.TabletAlias)
| VString (s : string)
| VInt64 (z : Z)
| VBool (b : bool).

(** The fields a request carries, by name, in declaration order. *)
Definition fieldsOf (req : Request) : list (string * FieldValue) :=
  match req with
  | ReqExecuteFetchAsApp r =>
      [ ("TabletAlias", VAlias (ExecuteFetchAsAppRequest.TabletAlias r));
        ("Query", VString (ExecuteFetchAsAppRequest.Query r));
        ("MaxRows", VInt64 (ExecuteFetchAsAppRequest.MaxRows r));
        ("UsePool", VBool (ExecuteFetchAsAppRequest.UsePool r)) ]
  | ReqExecuteFetchAsDBA r =>
      [ ("TabletAlias", VAlias (ExecuteFetchAsDBARequest.TabletAlias r));
        ("Query", VString (ExecuteFetchAsDBARequest.Query r));
        ("MaxRows", VInt64 (ExecuteFetchAsDBARequest.MaxRows r));
        ("DisableBinlogs", VBool (ExecuteFetchAsDBARequest.DisableBinlogs r));
        ("ReloadSchema", VBool (ExecuteFetchAsDBARequest.ReloadSchema r)) ]
  | ReqExecuteMultiFetchAsDBA r =>
      [ ("TabletAlias", VAlias (ExecuteMultiFetchAsDBARequest.TabletAlias r));
        ("Sql", VString (ExecuteMultiFetchAsDBARequest.Sql r));
        ("MaxRows", VInt64 (ExecuteMultiFetchAsDBARequest.MaxRows r));
        ("DisableBinlogs",
          VBool (ExecuteMultiFetchAsDBARequest.DisableBinlogs r));
        ("ReloadSchema",
          VBool (ExecuteMultiFetchAsDBARequest.ReloadSchema r)) ]
  | ReqGetUnresolvedTransactions r =>
      [ ("Keyspace", VString (GetUnresolvedTransactionsRequest.Keyspace r)) ]
  end.

Fixpoint field (name : string) (fs : list (string * FieldValue))
  : option FieldValue :=
  match fs with
  | [] => None
  | (n, v) :: rest => if String.eqb n name then Some v else field name rest
  end.

Definition carries (req : Request) (name : string) : bool :=
  match field name (fieldsOf req) with Some _ => true | None => false end.

(** Replies.  The result payloads are declared in other packages
    (querypb.QueryResult, the transaction list) and are opaque here. *)
Module ExecuteFetchAsAppResponse.
Record t (QueryResult : Type) : Type := mk { Result : QueryResult }.
Arguments mk {QueryResult} _.
Arguments Result {QueryResult} _.
End ExecuteFetchAsAppResponse.

Module ExecuteFetchAsDBAResponse.
Record t (QueryResult : Type) : Type := mk { Result : QueryResult }.
Arguments mk {QueryResult} _.
Arguments Result {QueryResult} _.
End ExecuteFetchAsDBAResponse.

Module ExecuteMultiFetchAsDBAResponse.
Record t (QueryResult : Type) : Type := mk { Results : list QueryResult }.
Arguments mk {QueryResult} _.
Arguments Results {QueryResult} _.
End ExecuteMultiFetchAsDBAResponse.

Module GetUnresolvedTransactionsResponse.
Record t (Transactions : Type) : Type := mk { Transactions : Transactions }.
Arguments mk {Transactions} _.
Arguments Transactions {Transactions} _.
End GetUnresolvedTransactionsResponse.

(** The vtctld client: one method per remote operation, each one network
    round trip answering with a reply or an error. *)
Module vtctldclient.
Record VtctldClient (QueryResult Transactions : Type) : Type := mk {
  ExecuteFetchAsApp :
    ExecuteFetchAsAppRequest.t ->
    outcome (ExecuteFetchAsAppResponse.t QueryResult);
  ExecuteFetchAsDBA :
    ExecuteFetchAsDBARequest.t ->
    outcome (ExecuteFetchAsDBAResponse.t QueryResult);
  ExecuteMultiFetchAsDBA :
    ExecuteMultiFetchAsDBARequest.t ->
    outcome (ExecuteMultiFetchAsDBAResponse.t QueryResult);
  GetUnresolvedTransactions :
    GetUnresolvedTransactionsRequest.t ->
    outcome (GetUnresolvedTransactionsResponse.t Transactions)
}.
Arguments mk {QueryResult Transactions} _ _ _ _.
Arguments ExecuteFetchAsApp {QueryResult Transactions} _ _.
Arguments ExecuteFetchAsDBA {QueryResult Transactions} _ _.
Arguments ExecuteMultiFetchAsDBA {QueryResult Transactions} _ _.
Arguments GetUnresolvedTransactions {QueryResult Transactions} _ _.
End vtctldclient.

(** ** Options and flags *)

(** The option structs bound to the flags.  The structs of
    ExecuteFetchAsDBA and ExecuteMultiFetchAsDBA have the same fields, so
    they are the same struct type; they are two distinct variables. *)
Module AppOptions.
Record t : Type := mk {
  MaxRows : Z;
  UsePool : bool;
  JSON : bool
}.
End AppOptions.

Module DBAOptions.
Record t : Type := mk {
  MaxRows : Z;
  DisableBinlogs : bool;
  ReloadSchema : bool;
  JSON : bool
}.
End DBAOptions.

(** The package-level variables of query.go. *)
Record Globals : Type := mkGlobals {
  executeFetchAsAppOptions : AppOptions.t;
  executeFetchAsDBAOptions : DBAOptions.t;
  executeMultiFetchAsDBAOptions : DBAOptions.t
}.

(** Their initial values: the struct literals set [MaxRows: 10_000] and
    leave the other fields at the zero value. *)
Definition packageVars : Globals :=
  {| executeFetchAsAppOptions :=
       {| AppOptions.MaxRows := 10000;
          AppOptions.UsePool := false;
          AppOptions.JSON := false |};
     executeFetchAsDBAOptions :=
       {| DBAOptions.MaxRows := 10000;
          DBAOptions.DisableBinlogs := false;
          DBAOptions.ReloadSchema := false;
          DBAOptions.JSON := false |};
     executeMultiFetchAsDBAOptions :=
       {| DBAOptions.MaxRows := 10000;
          DBAOptions.DisableBinlogs := false;
          DBAOptions.ReloadSchema := false;
          DBAOptions.JSON := false |} |}.

(** Flag binding as the flag library does it: [Int64Var(p, name, value,
    usage)] and [BoolVar(p, name, value, usage)] store [value] in [*p] when
    the flag is registered, whatever [*p] held. *)
Module pflag.
Definition Int64Var (p : Z) (value : Z) : Z := value.
Definition BoolVar (p : bool) (value : bool) : bool := value.
Definition BoolVarP (p : bool) (value : bool) : bool := value.

(** Parsing the command line stores the argument of a flag that occurs
    on it in the bound variable and leaves the variable alone when the
    flag does not occur. *)
Definition Set_ {A : Type} (p : A) (supplied : option A) : A :=
  match supplied with
  | Some v => v
  | None => p
  end.
End pflag.

(** [init]: the registration of the flags of the three fetch commands. *)
Definition init (g : Globals) : Globals :=
  {| executeFetchAsAppOptions :=
       {| AppOptions.MaxRows :=
            pflag.Int64Var (AppOptions.MaxRows (executeFetchAsAppOptions g))
              10000;
          AppOptions.UsePool :=
            pflag.BoolVar (AppOptions.UsePool (executeFetchAsAppOptions g))
              false;
          AppOptions.JSON :=
            pflag.BoolVarP (AppOptions.JSON (executeFetchAsAppOptions g))
              false |};
     executeFetchAsDBAOptions :=
       {| DBAOptions.MaxRows :=
            pflag.Int64Var (DBAOptions.MaxRows (executeFetchAsDBAOptions g))
              10000;
          DBAOptions.DisableBinlogs :=
            pflag.BoolVar
              (DBAOptions.DisableBinlogs (executeFetchAsDBAOptions g)) false;
          DBAOptions.ReloadSchema :=
            pflag.BoolVar
              (DBAOptions.ReloadSchema (executeFetchAsDBAOptions g)) false;
          DBAOptions.JSON :=
            pflag.BoolVarP (DBAOptions.JSON (executeFetchAsDBAOptions g))
              false |};
     executeMultiFetchAsDBAOptions :=
       {| DBAOptions.MaxRows :=
            pflag.Int64Var
              (DBAOptions.MaxRows (executeMultiFetchAsDBAOptions g)) 10000;
          DBAOptions.DisableBinlogs :=
            pflag.BoolVar
              (DBAOptions.DisableBinlogs (executeMultiFetchAsDBAOptions g))
              false;
          DBAOptions.ReloadSchema :=
            pflag.BoolVar
              (DBAOptions.ReloadSchema (executeMultiFetchAsDBAOptions g))
              false;
          DBAOptions.JSON :=
            pflag.BoolVarP
              (DBAOptions.JSON (executeMultiFetchAsDBAOptions g)) false |} |}.

(** What a command line supplies for the flags of a command: [None] for a
    flag that does not occur on it. *)
Module AppFlags.
Record t : Type := mk {
  max_rows : option Z;
  use_pool : option bool;
  json : option bool
}.
Definition none : t :=
  {| max_rows := None; use_pool := None; json := None |}.
End AppFlags.

Module DBAFlags.
Record t : Type := mk {
  max_rows : option Z;
  disable_binlogs : option bool;
  reload_schema : option bool;
  json : option bool
}.
Definition none : t :=
  {| max_rows := None; disable_binlogs := None; reload_schema := None;
     json := None |}.
End DBAFlags.

Definition parseAppFlags (fl : AppFlags.t) (o : AppOptions.t) : AppOptions.t :=
  {| AppOptions.MaxRows := pflag.Set_ (AppOptions.MaxRows o) (AppFlags.max_rows fl);
     AppOptions.UsePool := pflag.Set_ (AppOptions.UsePool o) (AppFlags.use_pool fl);
     AppOptions.JSON := pflag.Set_ (AppOptions.JSON o) (AppFlags.json fl) |}.

Definition parseDBAFlags (fl : DBAFlags.t) (o : DBAOptions.t) : DBAOptions.t :=
  {| DBAOptions.MaxRows := pflag.Set_ (DBAOptions.MaxRows o) (DBAFlags.max_rows fl);
     DBAOptions.DisableBinlogs :=
       pflag.Set_ (DBAOptions.DisableBinlogs o) (DBAFlags.disable_binlogs fl);
     DBAOptions.ReloadSchema :=
       pflag.Set_ (DBAOptions.ReloadSchema o) (DBAFlags.reload_schema fl);
     DBAOptions.JSON := pflag.Set_ (DBAOptions.JSON o) (DBAFlags.json fl) |}.

(** ** Commands *)

Module cobra.
(** What a handler uses of [*cobra.Command]: the positional arguments
    left after flag parsing, [cmd.Flags().Args()]. *)
Record Command : Type := mkCommand {
  Use : string;
  FlagArgs : list string
}.

(** [cmd.Flags().Arg(i)]: the [i]-th positional argument, the empty
    string when there is none. *)
Definition Arg (cmd : Command) (i : nat) : string :=
  nth i (FlagArgs cmd) EmptyString.
End cobra.

(** The line feed that ends the [Printf] format. *)
Definition newline : string := String (ascii_of_nat 10) EmptyString.

(** One run of the client binary, after the command line has been split:
    the command that was named, the flags supplied for it and the
    positional arguments.  The handler runs for any argument list; the
    argument-count check of the command ([cobra.ExactArgs]) runs before it
    and is not part of the handlers. *)
Inductive Invocation : Type :=
| InvExecuteFetchAsApp (fl : AppFlags.t) (args : list string)
| InvExecuteFetchAsDBA (fl : DBAFlags.t) (args : list string)
| InvExecuteMultiFetchAsDBA (fl : DBAFlags.t) (args : list string)
| InvGetUnresolvedTransactions (args : list string).

Definition positional (inv : Invocation) : list string :=
  match inv with
  | InvExecuteFetchAsApp _ args => args
  | InvExecuteFetchAsDBA _ args => args
  | InvExecuteMultiFetchAsDBA _ args => args
  | InvGetUnresolvedTransactions args => args
  end.

(** The three commands that take a tablet alias. *)
Definition isFetch (inv : Invocation) : bool :=
  match inv with
  | InvGetUnresolvedTransactions _ => false
  | _ => true
  end.

(** The value supplied on the command line for [--max-rows]. *)
Definition suppliedMaxRows (inv : Invocation) : option Z :=
  match inv with
  | InvExecuteFetchAsApp fl _ => AppFlags.max_rows fl
  | InvExecuteFetchAsDBA fl _ => DBAFlags.max_rows fl
  | InvExecuteMultiFetchAsDBA fl _ => DBAFlags.max_rows fl
  | InvGetUnresolvedTransactions _ => None
  end.

(** The value supplied on the command line for [--json] / [-j]. *)
Definition suppliedJSON (inv : Invocation) : option bool :=
  match inv with
  | InvExecuteFetchAsApp fl _ => AppFlags.json fl
  | InvExecuteFetchAsDBA fl _ => DBAFlags.json fl
  | InvExecuteMultiFetchAsDBA fl _ => DBAFlags.json fl
  | InvGetUnresolvedTransactions _ => None
  end.

(** The variables after [init] and the parsing of the flags of the
    command that runs; the variables of the other commands keep their
    registered defaults. *)
Definition parseFlags (inv : Invocation) (g : Globals) : Globals :=
  match inv with
  | InvExecuteFetchAsApp fl _ =>
      {| executeFetchAsAppOptions :=
           parseAppFlags fl (executeFetchAsAppOptions g);
         executeFetchAsDBAOptions := executeFetchAsDBAOptions g;
         executeMultiFetchAsDBAOptions := executeMultiFetchAsDBAOptions g |}
  | InvExecuteFetchAsDBA fl _ =>
      {| executeFetchAsAppOptions := executeFetchAsAppOptions g;
         executeFetchAsDBAOptions :=
           parseDBAFlags fl (executeFetchAsDBAOptions g);
         executeMultiFetchAsDBAOptions := executeMultiFetchAsDBAOptions g |}
  | InvExecuteMultiFetchAsDBA fl _ =>
      {| executeFetchAsAppOptions := executeFetchAsAppOptions g;
         executeFetchAsDBAOptions := executeFetchAsDBAOptions g;
         executeMultiFetchAsDBAOptions :=
           parseDBAFlags fl (executeMultiFetchAsDBAOptions g) |}
  | InvGetUnresolvedTransactions _ => g
  end.

(** ** The handlers *)

Section Handlers.

(** Types declared in other packages: [querypb.QueryResult] (the wire
    form of a result), [sqltypes.Result] (the decoded tabular result) and
    the transaction list of the GetUnresolvedTransactions reply. *)
Variables QueryResult Result Transactions : Type.

(** [sqltypes.Proto3ToResult]. *)
Variable Proto3ToResult : QueryResult -> Result.

(** [topoproto.ParseTabletAlias]. *)
Variable ParseTabletAlias : string -> outcome topodatapb.TabletAlias.

(** The package-level [client]. *)
Variable client : vtctldclient.VtctldClient QueryResult Transactions.

(** The values handed to [cli.MarshalJSON], whose parameter is [any]:
    one result, a slice of results, or the transaction list. *)
Inductive any : Type :=
| AnyResult (qr : Result)
| AnyResults (qrs : list Result)
| AnyTransactions (txs : Transactions).

(** [cli.MarshalJSON]: the encoded document or an error. *)
Variable MarshalJSON : any -> outcome string.

(** What a handler does outside itself, one event per call: the calls
    that can fail (parsing the alias, the remote operation, the encoder)
    and the calls that act on the world (the parsing checkpoint, the
    writes).  [sqltypes.Proto3ToResult] is a conversion that neither
    fails nor acts and is not recorded. *)
Inductive Event : Type :=
| EvParseTabletAlias (token : string)
| EvFinishedParsing (use : string)
| EvRemoteCall (req : Request)
| EvMarshalJSON (obj : any)
| EvPrintf (written : string)
| EvWriteQueryResultTable (qr : Result).

Definition Trace : Type := list Event.

(** A Go function returning [(A, error)] and acting on the world. *)
Definition M (A : Type) : Type := Trace -> outcome A * Trace.

Definition ret {A : Type} (a : A) : M A := fun t => (Ok a, t).

Definition bind {A B : Type} (m : M A) (k : A -> M B) : M B :=
  fun t =>
    match m t with
    | (Ok a, t') => k a t'
    | (Err e, t') => (Err e, t')
    end.

Notation "x <- m ;; k" := (bind m (fun x => k))
  (at level 61, m at next level, right associativity).
Notation "m ;; k" := (bind m (fun _ => k))
  (at level 61, right associativity).

Definition emit (ev : Event) : M unit := fun t => (Ok tt, (t ++ [ev])%list).

(** The result of a call comes back: [v, err := f(...)] followed by
    [if err != nil { return err }]. *)
Definition reply {A : Type} (r : outcome A) : M A := fun t => (r, t).

(** A handler starts on an empty trace. *)
Definition exec {A : Type} (m : M A) : outcome A * Trace := m [].

(** [topoproto.ParseTabletAlias(aliasStr)]. *)
Definition topoproto_ParseTabletAlias (aliasStr : string)
  : M topodatapb.TabletAlias :=
  emit (EvParseTabletAlias aliasStr) ;;
  reply (ParseTabletAlias aliasStr).

(** [cli.MarshalJSON(obj)]. *)
Definition cli_MarshalJSON (obj : any) : M string :=
  emit (EvMarshalJSON obj) ;;
  reply (MarshalJSON obj).

(** [cli.FinishedParsing(cmd)]. *)
Definition cli_FinishedParsing (cmd : cobra.Command) : M unit :=
  emit (EvFinishedParsing (cobra.Use cmd)).

(** The four remote operations: the call is recorded, then its reply or
    error comes back. *)
Definition client_ExecuteFetchAsApp (req : ExecuteFetchAsAppRequest.t)
  : M (ExecuteFetchAsAppResponse.t QueryResult) :=
  emit (EvRemoteCall (ReqExecuteFetchAsApp req)) ;;
  reply (vtctldclient.ExecuteFetchAsApp client req).

Definition client_ExecuteFetchAsDBA (req : ExecuteFetchAsDBARequest.t)
  : M (ExecuteFetchAsDBAResponse.t QueryResult) :=
  emit (EvRemoteCall (ReqExecuteFetchAsDBA req)) ;;
  reply (vtctldclient.ExecuteFetchAsDBA client req).

Definition client_ExecuteMultiFetchAsDBA
  (req : ExecuteMultiFetchAsDBARequest.t)
  : M (ExecuteMultiFetchAsDBAResponse.t QueryResult) :=
  emit (EvRemoteCall (ReqExecuteMultiFetchAsDBA req)) ;;
  reply (vtctldclient.ExecuteMultiFetchAsDBA client req).

Definition client_GetUnresolvedTransactions
  (req : GetUnresolvedTransactionsRequest.t)
  : M (GetUnresolvedTransactionsResponse.t Transactions) :=
  emit (EvRemoteCall (ReqGetUnresolvedTransactions req)) ;;
  reply (vtctldclient.GetUnresolvedTransactions client req).

(** [fmt.Printf("%s\n", data)]: the formatted line goes to the standard
    output in one write. *)
Definition fmt_Printf (data : string) : M unit :=
  emit (EvPrintf (data ++ newline)%string).

(** [cli.WriteQueryResultTable(cmd.OutOrStdout(), qr)]: the table of one
    result; the function returns nothing. *)
Definition cli_WriteQueryResultTable (qr : Result) : M unit :=
  emit (EvWriteQueryResultTable qr).

(** [for _, x := range xs { body }] for a body acting on the world. *)
Fixpoint forRange {A : Type} (xs : list A) (body : A -> M unit) : M unit :=
  match xs with
  | [] => ret tt
  | x :: rest => body x ;; forRange rest body
  end.

Definition commandExecuteFetchAsApp (g : Globals) (cmd : cobra.Command)
  (args : list string) : M unit :=
  alias <- topoproto_ParseTabletAlias (cobra.Arg cmd 0) ;;
  cli_FinishedParsing cmd ;;
  let query := cobra.Arg cmd 1 in
  resp <- client_ExecuteFetchAsApp
    {| ExecuteFetchAsAppRequest.TabletAlias := alias;
       ExecuteFetchAsAppRequest.Query := query;
       ExecuteFetchAsAppRequest.MaxRows :=
         AppOptions.MaxRows (executeFetchAsAppOptions g);
       ExecuteFetchAsAppRequest.UsePool :=
         AppOptions.UsePool (executeFetchAsAppOptions g) |} ;;
  let qr := Proto3ToResult (ExecuteFetchAsAppResponse.Result resp) in
  (if AppOptions.JSON (executeFetchAsAppOptions g)
   then data <- cli_MarshalJSON (AnyResult qr) ;;
        fmt_Printf data
   else cli_WriteQueryResultTable qr) ;;
  ret tt.

Definition commandExecuteFetchAsDBA (g : Globals) (cmd : cobra.Command)
  (args : list string) : M unit :=
  alias <- topoproto_ParseTabletAlias (cobra.Arg cmd 0) ;;
  cli_FinishedParsing cmd ;;
  let query := cobra.Arg cmd 1 in
  resp <- client_ExecuteFetchAsDBA
    {| ExecuteFetchAsDBARequest.TabletAlias := alias;
       ExecuteFetchAsDBARequest.Query := query;
       ExecuteFetchAsDBARequest.MaxRows :=
         DBAOptions.MaxRows (executeFetchAsDBAOptions g);
       ExecuteFetchAsDBARequest.DisableBinlogs :=
         DBAOptions.DisableBinlogs (executeFetchAsDBAOptions g);
       ExecuteFetchAsDBARequest.ReloadSchema :=
         DBAOptions.ReloadSchema (executeFetchAsDBAOptions g) |} ;;
  let qr := Proto3ToResult (ExecuteFetchAsDBAResponse.Result resp) in
  (if DBAOptions.JSON (executeFetchAsDBAOptions g)
   then data <- cli_MarshalJSON (AnyResult qr) ;;
        fmt_Printf data
   else cli_WriteQueryResultTable qr) ;;
  ret tt.

Definition commandExecuteMultiFetchAsDBA (g : Globals) (cmd : cobra.Command)
  (args : list string) : M unit :=
  alias <- topoproto_ParseTabletAlias (cobra.Arg cmd 0) ;;
  cli_FinishedParsing cmd ;;
  let sql := cobra.Arg cmd 1 in
  resp <- client_ExecuteMultiFetchAsDBA
    {| ExecuteMultiFetchAsDBARequest.TabletAlias := alias;
       ExecuteMultiFetchAsDBARequest.Sql := sql;
       ExecuteMultiFetchAsDBARequest.MaxRows :=
         DBAOptions.MaxRows (executeMultiFetchAsDBAOptions g);
       ExecuteMultiFetchAsDBARequest.DisableBinlogs :=
         DBAOptions.DisableBinlogs (executeMultiFetchAsDBAOptions g);
       ExecuteMultiFetchAsDBARequest.ReloadSchema :=
         DBAOptions.ReloadSchema (executeMultiFetchAsDBAOptions g) |} ;;
  let qrs :=
    fold_left (fun qrs result => (qrs ++ [Proto3ToResult result])%list)
      (ExecuteMultiFetchAsDBAResponse.Results resp) [] in
  (if DBAOptions.JSON (executeMultiFetchAsDBAOptions g)
   then data <- cli_MarshalJSON (AnyResults qrs) ;;
        fmt_Printf data
   else forRange qrs (fun qr => cli_WriteQueryResultTable qr)) ;;
  ret tt.

Definition commandGetUnresolvedTransactions (g : Globals)
  (cmd : cobra.Command) (args : list string) : M unit :=
  cli_FinishedParsing cmd ;;
  let keyspace := cobra.Arg cmd 0 in
  resp <- client_GetUnresolvedTransactions
    {| GetUnresolvedTransactionsRequest.Keyspace := keyspace |} ;;
  data <- cli_MarshalJSON
    (AnyTransactions (GetUnresolvedTransactionsResponse.Transactions resp)) ;;
  fmt_Printf data ;;
  ret tt.

(** The command variables of query.go: the usage line of each command
    and, in [RunE], the handler bound to it. *)
Definition ExecuteFetchAsApp (args : list string) : cobra.Command :=
  {| cobra.Use := "ExecuteFetchAsApp [--max-rows <max-rows>] [--json|-j] [--use-pool] <tablet-alias> <query>";
     cobra.FlagArgs := args |}.

Definition ExecuteFetchAsDBA (args : list string) : cobra.Command :=
  {| cobra.Use := "ExecuteFetchAsDBA [--max-rows <max-rows>] [--json|-j] [--disable-binlogs] [--reload-schema] <tablet alias> <query>";
     cobra.FlagArgs := args |}.

Definition ExecuteMultiFetchAsDBA (args : list string) : cobra.Command :=
  {| cobra.Use := "ExecuteMultiFetchAsDBA [--max-rows <max-rows>] [--json|-j] [--disable-binlogs] [--reload-schema] <tablet alias> <sql>";
     cobra.FlagArgs := args |}.

Definition GetUnresolvedTransactions (args : list string) : cobra.Command :=
  {| cobra.Use := "GetUnresolvedTransactions <keyspace>";
     cobra.FlagArgs := args |}.

Definition RunE (inv : Invocation) : M unit :=
  let g := parseFlags inv (init packageVars) in
  match inv with
  | InvExecuteFetchAsApp _ args =>
      commandExecuteFetchAsApp g (ExecuteFetchAsApp args) args
  | InvExecuteFetchAsDBA _ args =>
      commandExecuteFetchAsDBA g (ExecuteFetchAsDBA args) args
  | InvExecuteMultiFetchAsDBA _ args =>
      commandExecuteMultiFetchAsDBA g (ExecuteMultiFetchAsDBA args) args
  | InvGetUnresolvedTransactions args =>
      commandGetUnresolvedTransactions g (GetUnresolvedTransactions args)
        args
  end.

(** *** Observations on a trace *)

Definition isOutput (ev : Event) : bool :=
  match ev with
  | EvPrintf _ | EvWriteQueryResultTable _ => true
  | _ => false
  end.

(** The writes to the output stream, in order. *)
Definition outputs (t : Trace) : list Event := filter isOutput t.

(** The requests sent to the remote side, in order. *)
Fixpoint remoteCalls (t : Trace) : list Request :=
  match t with
  | [] => []
  | EvRemoteCall req :: rest => req :: remoteCalls rest
  | _ :: rest => remoteCalls rest
  end.

(** How many times the parsing checkpoint was passed. *)
Fixpoint finishedParsingCount (t : Trace) : nat :=
  match t with
  | [] => 0
  | EvFinishedParsing _ :: rest => S (finishedParsingCount rest)
  | _ :: rest => finishedParsingCount rest
  end.

(** The error the remote side answers a request with, if it does. *)
Definition remoteError (req : Request) : option error :=
  match req with
  | ReqExecuteFetchAsApp r =>
      match vtctldclient.ExecuteFetchAsApp client r with
      | Err e => Some e
      | Ok _ => None
      end
  | ReqExecuteFetchAsDBA r =>
      match vtctldclient.ExecuteFetchAsDBA client r with
      | Err e => Some e
      | Ok _ => None
      end
  | ReqExecuteMultiFetchAsDBA r =>
      match vtctldclient.ExecuteMultiFetchAsDBA client r with
      | Err e => Some e
      | Ok _ => None
      end
  | ReqGetUnresolvedTransactions r =>
      match vtctldclient.GetUnresolvedTransactions client r with
      | Err e => Some e
      | Ok _ => None
      end
  end.

(** Whether a run gets past the parsing of its target identity: a
    fetch command parses its first positional argument, and
    GetUnresolvedTransactions has no identity to parse. *)
Definition identityParses (inv : Invocation) : bool :=
  if isFetch inv
  then isOk (ParseTabletAlias (nth 0 (positional inv) EmptyString))
  else true.

(** The result and the trace of one run of the binary. *)
Definition result (inv : Invocation) : outcome unit := fst (exec (RunE inv)).
Definition trace (inv : Invocation) : Trace := snd (exec (RunE inv)).

End Handlers.

Arguments AnyResult {Result Transactions} qr.
Arguments AnyResults {Result Transactions} qrs.
Arguments AnyTransactions {Result Transactions} txs.
Arguments EvParseTabletAlias {Result Transactions} token.
Arguments EvFinishedParsing {Result Transactions} use.
Arguments EvRemoteCall {Result Transactions} req.
Arguments EvMarshalJSON {Result Transactions} obj.
Arguments EvPrintf {Result Transactions} written.
Arguments EvWriteQueryResultTable {Result Transactions} qr.

(** ** Documents and the encoder *)

Module json.

(** A document, by its structure. *)
#[local] Unset Elimination Schemes.
Inductive Value : Type :=
| Null
| Str (s : string)
| Array (items : list Value)
| Object (members : list (string * Value)).
#[local] Set Elimination Schemes.

Definition quote : string := String (ascii_of_nat 34) EmptyString.

(** A layout of a document as text: no white space, and strings written
    between quotes as they are. *)
Fixpoint compact (v : Value) : string :=
  match v with
  | Null => "null"
  | Str s => (quote ++ s ++ quote)%string
  | Array items =>
      ("[" ++ String.concat "," (map compact items) ++ "]")%string
  | Object members =>
      ("{" ++ String.concat ","
                (map (fun member =>
                        match member with
                        | (key, v) =>
                            (quote ++ key ++ quote ++ ":" ++ compact v)%string
                        end) members)
           ++ "}")%string
  end.

End json.

Module cli.

Section Encoder.

Variables Result Transactions : Type.

(** The layout the encoder writes a document in. *)
Variable render : json.Value -> string.

(** The document of one result and the document of the transaction list,
    or the error of a value that cannot be represented. *)
Variable resultDocument : Result -> outcome json.Value.
Variable transactionsDocument : Transactions -> outcome json.Value.

(** The documents of the elements of a slice, in order; the first element
    that cannot be represented fails the whole. *)
Fixpoint documents (qrs : list Result) : outcome (list json.Value) :=
  match qrs with
  | [] => Ok []
  | qr :: rest =>
      match resultDocument qr with
      | Err e => Err e
      | Ok doc =>
          match documents rest with
          | Err e => Err e
          | Ok docs => Ok (doc :: docs)
          end
      end
  end.

(** The document of a slice of results.  The slice of
    [commandExecuteMultiFetchAsDBA] is declared without a value (line
    187) and only grows by [append], so it is the nil slice exactly when
    it is empty. *)
Definition sliceDocument (qrs : list Result) : outcome json.Value :=
  match qrs with
  | [] => Ok json.Null
  | _ :: _ =>
      match documents qrs with
      | Err e => Err e
      | Ok docs => Ok (json.Array docs)
      end
  end.

(** Modelled from the spec: [cli.MarshalJSON] lives in
    go/cmd/vtctldclient/cli, outside this file.  Section 6:
    [SerializeToDocument(value) -> (bytes, error)] encodes a single
    result, an ordered result batch or the transaction set; section 4.3:
    the document of a batch is the ordered collection of the
    per-statement result documents, and a value that cannot be
    represented is an error.  Where the specification is silent, the
    encoding is that of Go's [encoding/json], which a value that is not a
    protobuf message goes through: a slice is encoded as the array of the
    encodings of its elements, and a nil slice as [null]. *)
Definition MarshalJSON (obj : any Result Transactions) : outcome string :=
  match
    match obj with
    | AnyResult qr => resultDocument qr
    | AnyResults qrs => sliceDocument qrs
    | AnyTransactions txs => transactionsDocument txs
    end
  with
  | Err e => Err e
  | Ok doc => Ok (render doc)
  end.


End Encoder.

End cli.

(** ** Test doubles

    A small world to run the handlers in: results are tables of text
    cells, the remote side knows a few statements, and the encoder
    refuses a table with a row that is wider or narrower than its
    header and writes [null] for a slice without elements.  The
    scenarios of section 8 of the specification run in it. *)
Module Fixture.

Record Table : Type := mkTable {
  Fields : list string;
  Rows : list (list string)
}.

Definition Transactions : Type := list string.

Definition Proto3ToResult (qr : Table) : Table := qr.

Definition one : Table := {| Fields := ["1"]; Rows := [["1"]] |}.
Definition two : Table := {| Fields := ["2"]; Rows := [["2"]] |}.
Definition ragged : Table := {| Fields := ["a"]; Rows := [["x"; "y"]] |}.

Definition refused : error := TransportOrServerError "syntax error".

Definition query (q : string) : outcome Table :=
  if String.eqb q "select 1" then Ok one
  else if String.eqb q "select ragged" then Ok ragged
  else Err refused.

Definition batch (sql : string) : outcome (list Table) :=
  if String.eqb sql "select 1; select 2" then Ok [one; two]
  else if String.eqb sql "select 1; select ragged" then Ok [one; ragged]
  else if String.eqb sql "" then Ok []
  else Err refused.

Definition client : vtctldclient.VtctldClient Table Transactions :=
  vtctldclient.mk
    (fun req =>
       match query (ExecuteFetchAsAppRequest.Query req) with
       | Ok qr => Ok (ExecuteFetchAsAppResponse.mk qr)
       | Err e => Err e
       end)
    (fun req =>
       match query (ExecuteFetchAsDBARequest.Query req) with
       | Ok qr => Ok (ExecuteFetchAsDBAResponse.mk qr)
       | Err e => Err e
       end)
    (fun req =>
       match batch (ExecuteMultiFetchAsDBARequest.Sql req) with
       | Ok qrs => Ok (ExecuteMultiFetchAsDBAResponse.mk qrs)
       | Err e => Err e
       end)
    (fun req =>
       let ks := GetUnresolvedTransactionsRequest.Keyspace req in
       if String.eqb ks "ks1"
       then Ok (GetUnresolvedTransactionsResponse.mk ["ks1:-80:7"])
       else if String.eqb ks "ks2"
       then Ok (GetUnresolvedTransactionsResponse.mk ["ks2:-:[]"])
       else Err (TransportOrServerError "keyspace not found")).

Definition quote : string := String (ascii_of_nat 34) EmptyString.

Definition encString (s : string) : string :=
  (quote ++ s ++ quote)%string.

Definition encArray (docs : list string) : string :=
  ("[" ++ String.concat "," docs ++ "]")%string.

Definition wellShaped (t : Table) : bool :=
  forallb (fun row => (length row =? length (Fields t))%nat) (Rows t).

Definition encTable (t : Table) : string :=
  ("{" ++ encString "fields" ++ ":" ++ encArray (map encString (Fields t))
     ++ "," ++ encString "rows" ++ ":"
     ++ encArray (map (fun row => encArray (map encString row)) (Rows t))
     ++ "}")%string.

Definition representable (tx : string) : bool :=
  negb (String.eqb tx "ks2:-:[]").

(** The document of a table: its field names and its rows of cells. *)
Definition tableDocument (t : Table) : outcome json.Value :=
  if wellShaped t
  then Ok (json.Object
             [ ("fields", json.Array (map json.Str (Fields t)));
               ("rows",
                json.Array
                  (map (fun row => json.Array (map json.Str row)) (Rows t))) ])
  else Err (EncodingError "ragged row").

Definition transactionsDocument (txs : Transactions) : outcome json.Value :=
  if forallb representable txs
  then Ok (json.Array (map json.Str txs))
  else Err (EncodingError "unrepresentable transaction").

(** The encoder of [cli] over these documents, in the compact layout. *)
Definition MarshalJSON (obj : any Table Transactions) : outcome string :=
  cli.MarshalJSON Table Transactions json.compact tableDocument
    transactionsDocument obj.

(** A run of the binary in this world, with the alias parser of
    [topoproto]. *)
Definition run (inv : Invocation) : outcome unit * Trace Table Transactions :=
  exec Table Transactions
    (RunE Table Table Transactions Proto3ToResult
       topoproto.ParseTabletAlias client MarshalJSON inv).

Definition result (inv : Invocation) : outcome unit := fst (run inv).
Definition trace (inv : Invocation) : Trace Table Transactions :=
  snd (run inv).

(** Sample command lines. *)
Definition zone1_100 : topodatapb.TabletAlias :=
  {| topodatapb.Cell := "zone1"; topodatapb.Uid := 100 |}.

Definition app_capped : Invocation :=
  InvExecuteFetchAsApp
    {| AppFlags.max_rows := Some 250%Z; AppFlags.use_pool := Some true;
       AppFlags.json := None |}
    ["zone1-0000000100"; "select 1"].

Definition app_capped_request : Request :=
  ReqExecuteFetchAsApp
    {| ExecuteFetchAsAppRequest.TabletAlias := zone1_100;
       ExecuteFetchAsAppRequest.Query := "select 1";
       ExecuteFetchAsAppRequest.MaxRows := 250;
       ExecuteFetchAsAppRequest.UsePool := true |}.

Definition app_json_ragged : Invocation :=
  InvExecuteFetchAsApp
    {| AppFlags.max_rows := None; AppFlags.use_pool := None;
       AppFlags.json := Some true |}
    ["zone1-100"; "select ragged"].

Definition dba_default : Invocation :=
  InvExecuteFetchAsDBA DBAFlags.none ["zone1-100"; "select ragged"].

Definition dba_default_request : Request :=
  ReqExecuteFetchAsDBA
    {| ExecuteFetchAsDBARequest.TabletAlias := zone1_100;
       ExecuteFetchAsDBARequest.Query := "select ragged";
       ExecuteFetchAsDBARequest.MaxRows := 10000;
       ExecuteFetchAsDBARequest.DisableBinlogs := false;
       ExecuteFetchAsDBARequest.ReloadSchema := false |}.

Definition dba_malformed : Invocation :=
  InvExecuteFetchAsDBA
    {| DBAFlags.max_rows := Some 1%Z; DBAFlags.disable_binlogs := Some true;
       DBAFlags.reload_schema := None; DBAFlags.json := Some true |}
    ["not-an-alias"; "select 1"].

Definition multi_flags (json : option bool) : DBAFlags.t :=
  {| DBAFlags.max_rows := None; DBAFlags.disable_binlogs := Some true;
     DBAFlags.reload_schema := None; DBAFlags.json := json |}.

Definition multi_request (sql : string) : ExecuteMultiFetchAsDBARequest.t :=
  {| ExecuteMultiFetchAsDBARequest.TabletAlias := zone1_100;
     ExecuteMultiFetchAsDBARequest.Sql := sql;
     ExecuteMultiFetchAsDBARequest.MaxRows := 10000;
     ExecuteMultiFetchAsDBARequest.DisableBinlogs := true;
     ExecuteMultiFetchAsDBARequest.ReloadSchema := false |}.

Definition multi_failing : Invocation :=
  InvExecuteMultiFetchAsDBA (multi_flags None)
    ["zone1-100"; "select 1; select nothing from nowhere"].

End Fixture.

(** ** The command declarations and further observations *)

(** [cobra.ExactArgs(n)], the [Args] field of the four command variables:
    the check a command line passes before [RunE] is entered.  It answers
    with the two numbers of its message (accepts n, received m) when the
    count of positional arguments is not [n]. *)
Definition ExactArgs (n : nat) (args : list string) : option (nat * nat) :=
  if (length args =? n)%nat then None else Some (n, length args).

(** The [Args] field of the command that runs: two positional arguments
    for the fetch commands, one for GetUnresolvedTransactions. *)
Definition Args (inv : Invocation) : list string -> option (nat * nat) :=
  match inv with
  | InvExecuteFetchAsApp _ _ => ExactArgs 2
  | InvExecuteFetchAsDBA _ _ => ExactArgs 2
  | InvExecuteMultiFetchAsDBA _ _ => ExactArgs 2
  | InvGetUnresolvedTransactions _ => ExactArgs 1
  end.

(** The command line with another value for [--json] / [-j]. *)
Definition withJSON (json : option bool) (inv : Invocation) : Invocation :=
  match inv with
  | InvExecuteFetchAsApp fl args =>
      InvExecuteFetchAsApp
        {| AppFlags.max_rows := AppFlags.max_rows fl;
           AppFlags.use_pool := AppFlags.use_pool fl;
           AppFlags.json := json |} args
  | InvExecuteFetchAsDBA fl args =>
      InvExecuteFetchAsDBA
        {| DBAFlags.max_rows := DBAFlags.max_rows fl;
           DBAFlags.disable_binlogs := DBAFlags.disable_binlogs fl;
           DBAFlags.reload_schema := DBAFlags.reload_schema fl;
           DBAFlags.json := json |} args
  | InvExecuteMultiFetchAsDBA fl args =>
      InvExecuteMultiFetchAsDBA
        {| DBAFlags.max_rows := DBAFlags.max_rows fl;
           DBAFlags.disable_binlogs := DBAFlags.disable_binlogs fl;
           DBAFlags.reload_schema := DBAFlags.reload_schema fl;
           DBAFlags.json := json |} args
  | InvGetUnresolvedTransactions args => InvGetUnresolvedTransactions args
  end.

(** The name of the request field that holds the statement text. *)
Definition statementField (inv : Invocation) : string :=
  match inv with
  | InvExecuteMultiFetchAsDBA _ _ => "Sql"
  | InvGetUnresolvedTransactions _ => "Keyspace"
  | _ => "Query"
  end.

(** The position of the statement text among the positional arguments. *)
Definition statementIndex (inv : Invocation) : nat :=
  match inv with
  | InvGetUnresolvedTransactions _ => 0
  | _ => 1
  end.

Section Launching.

Variables QueryResult Result Transactions : Type.
Variable Proto3ToResult : QueryResult -> Result.
Variable ParseTabletAlias : string -> outcome topodatapb.TabletAlias.
Variable client : vtctldclient.VtctldClient QueryResult Transactions.
Variable MarshalJSON : any Result Transactions -> outcome string.

(** The one result the remote side answers a single-statement request
    with, if it answers with one. *)
Definition singleReply (req : Request) : option QueryResult :=
  match req with
  | ReqExecuteFetchAsApp r =>
      match vtctldclient.ExecuteFetchAsApp client r with
      | Ok resp => Some (ExecuteFetchAsAppResponse.Result resp)
      | Err _ => None
      end
  | ReqExecuteFetchAsDBA r =>
      match vtctldclient.ExecuteFetchAsDBA client r with
      | Ok resp => Some (ExecuteFetchAsDBAResponse.Result resp)
      | Err _ => None
      end
  | _ => None
  end.

(** What became of a command line: turned down by the argument check, or
    handed to the handler, with what the handler returned and did. *)
Inductive Launched : Type :=
| Rejected (accepts received : nat)
| Ran (returned : outcome unit) (did : Trace Result Transactions).

(** The argument check of the command, then its handler. *)
Definition Launch (inv : Invocation) : Launched :=
  match Args inv (positional inv) with
  | Some (accepts, received) => Rejected accepts received
  | None =>
      Ran (result QueryResult Result Transactions Proto3ToResult
             ParseTabletAlias client MarshalJSON inv)
          (trace QueryResult Result Transactions Proto3ToResult
             ParseTabletAlias client MarshalJSON inv)
  end.

End Launching.

Arguments Rejected {Result Transactions} accepts received.
Arguments Ran {Result Transactions} returned did.

(** More sample command lines for the world of [Fixture]. *)
Module Samples.

Definition json : option bool := Some true.

Definition app_json : Invocation :=
  InvExecuteFetchAsApp
    {| AppFlags.max_rows := None; AppFlags.use_pool := None;
       AppFlags.json := json |}
    ["zone1-100"; "select 1"].

Definition app_table : Invocation :=
  InvExecuteFetchAsApp AppFlags.none ["zone1-100"; "select 1"].

Definition app_request : Request :=
  ReqExecuteFetchAsApp
    {| ExecuteFetchAsAppRequest.TabletAlias := Fixture.zone1_100;
       ExecuteFetchAsAppRequest.Query := "select 1";
       ExecuteFetchAsAppRequest.MaxRows := 10000;
       ExecuteFetchAsAppRequest.UsePool := false |}.

Definition dba_refused : Invocation :=
  InvExecuteFetchAsDBA DBAFlags.none ["zone1-100"; "drop everything"].

Definition dba_refused_request : Request :=
  ReqExecuteFetchAsDBA
    {| ExecuteFetchAsDBARequest.TabletAlias := Fixture.zone1_100;
       ExecuteFetchAsDBARequest.Query := "drop everything";
       ExecuteFetchAsDBARequest.MaxRows := 10000;
       ExecuteFetchAsDBARequest.DisableBinlogs := false;
       ExecuteFetchAsDBARequest.ReloadSchema := false |}.

Definition multi_table : Invocation :=
  InvExecuteMultiFetchAsDBA (Fixture.multi_flags None)
    ["zone1-100"; "select 1; select 2"].

Definition multi_empty (json : option bool) : Invocation :=
  InvExecuteMultiFetchAsDBA (Fixture.multi_flags json) ["zone1-100"; ""].

Definition transactions : Invocation := InvGetUnresolvedTransactions ["ks1"].

Definition launch (inv : Invocation)
  : Launched Fixture.Table Fixture.Transactions :=
  Launch Fixture.Table Fixture.Table Fixture.Transactions
    Fixture.Proto3ToResult topoproto.ParseTabletAlias Fixture.client
    Fixture.MarshalJSON inv.

End Samples.

(** * Properties *)

(** The scenario of section 8: a well-formed alias, [select 1], default
    options. *)
Example scenario_select_1 :
  Fixture.run (InvExecuteFetchAsApp AppFlags.none ["zone1-0000000100"; "select 1"])
  = (Ok tt,
     [ EvParseTabletAlias "zone1-0000000100";
       EvFinishedParsing (cobra.Use (ExecuteFetchAsApp ["zone1-0000000100"; "select 1"]));
       EvRemoteCall (ReqExecuteFetchAsApp
         {| ExecuteFetchAsAppRequest.TabletAlias :=
              {| topodatapb.Cell := "zone1"; topodatapb.Uid := 100 |};
            ExecuteFetchAsAppRequest.Query := "select 1";
            ExecuteFetchAsAppRequest.MaxRows := 10000;
            ExecuteFetchAsAppRequest.UsePool := false |});
       EvWriteQueryResultTable Fixture.one ]).
Proof. reflexivity. Qed.

Example scenario_not_an_alias :
  Fixture.run (InvExecuteFetchAsApp AppFlags.none ["not-an-alias"; "select 1"])
  = (Err (MalformedIdentity "not-an-alias"),
     [ EvParseTabletAlias "not-an-alias" ]).
Proof. reflexivity. Qed.

Example scenario_multi_json :
  Fixture.run (InvExecuteMultiFetchAsDBA
    {| DBAFlags.max_rows := Some 5%Z; DBAFlags.disable_binlogs := None;
       DBAFlags.reload_schema := Some true; DBAFlags.json := Some true |}
    ["zone1-100"; "select 1; select 2"])
  = (Ok tt,
     [ EvParseTabletAlias "zone1-100";
       EvFinishedParsing (cobra.Use (ExecuteMultiFetchAsDBA ["zone1-100"; "select 1; select 2"]));
       EvRemoteCall (ReqExecuteMultiFetchAsDBA
         {| ExecuteMultiFetchAsDBARequest.TabletAlias :=
              {| topodatapb.Cell := "zone1"; topodatapb.Uid := 100 |};
            ExecuteMultiFetchAsDBARequest.Sql := "select 1; select 2";
            ExecuteMultiFetchAsDBARequest.MaxRows := 5;
            ExecuteMultiFetchAsDBARequest.DisableBinlogs := false;
            ExecuteMultiFetchAsDBARequest.ReloadSchema := true |});
       EvMarshalJSON (AnyResults [Fixture.one; Fixture.two]);
       EvPrintf (Fixture.encArray [Fixture.encTable Fixture.one;
                                   Fixture.encTable Fixture.two] ++ newline)%string ]).
Proof. reflexivity. Qed.

(** ** The alias parser *)

Lemma Split_nonempty (sep : ascii) (s : string) : topoproto.Split sep s <> [].
Proof.
  destruct s as [|c rest]; simpl; [discriminate|].
  destruct (Ascii.eqb c sep); [discriminate|].
  destruct (topoproto.Split sep rest); discriminate.
Qed.

Lemma Split_length (s : string) :
  length (topoproto.Split "-" s) = S (topoproto.separators s).
Proof.
  induction s as [|c rest IH]; simpl; [reflexivity|].
  destruct (Ascii.eqb c "-"); simpl.
  - now rewrite IH.
  - destruct (topoproto.Split "-" rest) eqn:E; simpl in *; [discriminate|].
    exact IH.
Qed.

Lemma Split_no_separator (s : string) :
  topoproto.separators s = 0 -> topoproto.Split "-" s = [s].
Proof.
  induction s as [|c rest IH]; simpl; [reflexivity|].
  destruct (Ascii.eqb c "-"); [discriminate|].
  intros H; now rewrite (IH H).
Qed.

Lemma Split_last_piece (s : string) (cell uid : string) :
  topoproto.Split "-" s = [cell; uid] -> uid = topoproto.afterSeparator s.
Proof.
  revert cell; induction s as [|c rest IH]; intros cell; simpl.
  - discriminate.
  - destruct (Ascii.eqb c "-").
    + intros H; injection H as _ H.
      pose proof (Split_length rest) as L; rewrite H in L; simpl in L.
      injection L as L; symmetry in L.
      rewrite (Split_no_separator rest L) in H; congruence.
    + destruct (topoproto.Split "-" rest) as [|piece pieces] eqn:E;
        [discriminate|].
      intros H; injection H as _ H; subst pieces.
      now apply (IH piece).
Qed.

(** The parser accepts exactly the well-formed tokens. *)
Lemma ParseTabletAlias_malformed (token : string) :
  topoproto.wellFormed token = false ->
  topoproto.ParseTabletAlias token = Err (MalformedIdentity token).
Proof.
  unfold topoproto.wellFormed, topoproto.ParseTabletAlias; intros W.
  destruct (topoproto.Split "-" token) as [|cell [|uid [|x rest]]] eqn:E;
    try reflexivity.
  pose proof (Split_length token) as L; rewrite E in L; simpl in L.
  injection L as L; rewrite <- L in W; simpl in W.
  rewrite <- (Split_last_piece token cell uid E) in W.
  now rewrite W.
Qed.

Lemma ParseTabletAlias_wellFormed (token : string) :
  topoproto.wellFormed token = true ->
  exists alias, topoproto.ParseTabletAlias token = Ok alias.
Proof.
  unfold topoproto.wellFormed, topoproto.ParseTabletAlias; intros W.
  apply andb_true_iff in W as [S1 Num]; apply Nat.eqb_eq in S1.
  pose proof (Split_length token) as L; rewrite S1 in L.
  destruct (topoproto.Split "-" token) as [|cell [|uid [|x rest]]] eqn:E;
    try discriminate.
  rewrite (Split_last_piece token cell uid E), Num; eauto.
Qed.

(** ** The handlers, run *)

Section Runs.

Variables QueryResult Result Transactions : Type.
Variable Proto3ToResult : QueryResult -> Result.
Variable ParseTabletAlias : string -> outcome topodatapb.TabletAlias.
Variable client : vtctldclient.VtctldClient QueryResult Transactions.
Variable MarshalJSON : any Result Transactions -> outcome string.

Local Abbreviation Ev := (Event Result Transactions).
Local Abbreviation resultOf :=
  (result QueryResult Result Transactions Proto3ToResult ParseTabletAlias
     client MarshalJSON).
Local Abbreviation traceOf :=
  (trace QueryResult Result Transactions Proto3ToResult ParseTabletAlias
     client MarshalJSON).

(** The slice built by the loop of lines 187-191 holds the converted
    results in the order of the reply. *)
Lemma append_loop_is_map (rs : list QueryResult) (acc : list Result) :
  fold_left (fun qrs r => qrs ++ [Proto3ToResult r]) rs acc
  = acc ++ map Proto3ToResult rs.
Proof.
  revert acc; induction rs as [|r rs IH]; intros acc; simpl.
  - now rewrite app_nil_r.
  - now rewrite IH, <- app_assoc.
Qed.

(** The loop of lines 201-203 writes one table per result, in order,
    and cannot fail. *)
Lemma table_loop (qrs : list Result) (t : Trace Result Transactions) :
  forRange Result Transactions qrs
    (fun qr => cli_WriteQueryResultTable Result Transactions qr) t
  = (Ok tt, t ++ map EvWriteQueryResultTable qrs).
Proof.
  revert t; induction qrs as [|qr qrs IH]; intros t; simpl.
  - now rewrite app_nil_r.
  - unfold bind, cli_WriteQueryResultTable, emit at 1; simpl.
    now rewrite IH, <- app_assoc.
Qed.

Lemma outputs_tables (qrs : list Result) :
  outputs Result Transactions (map EvWriteQueryResultTable qrs)
  = map EvWriteQueryResultTable qrs.
Proof.
  unfold outputs; induction qrs as [|qr qrs IH]; simpl; [reflexivity|].
  now rewrite IH.
Qed.

Lemma remoteCalls_tables (qrs : list Result) :
  remoteCalls Result Transactions (map EvWriteQueryResultTable qrs) = [].
Proof. induction qrs; simpl; auto. Qed.

Lemma finishedParsingCount_tables (qrs : list Result) :
  finishedParsingCount Result Transactions
    (map EvWriteQueryResultTable qrs) = 0.
Proof. induction qrs; simpl; auto. Qed.

Lemma In_tables (ev : Ev) (qrs : list Result) :
  In ev (map EvWriteQueryResultTable qrs) ->
  exists qr, ev = EvWriteQueryResultTable qr.
Proof.
  intros H; apply in_map_iff in H as (qr & <- & _); eauto.
Qed.

(** What one run of ExecuteMultiFetchAsDBA does, case by case. *)
Lemma run_ExecuteMultiFetchAsDBA (g : Globals) (cmd : cobra.Command)
  (args : list string) :
  exec Result Transactions
    (commandExecuteMultiFetchAsDBA QueryResult Result Transactions
       Proto3ToResult ParseTabletAlias client MarshalJSON g cmd args)
  = let token := cobra.Arg cmd 0 in
    match ParseTabletAlias token with
    | Err e => (Err e, [EvParseTabletAlias token])
    | Ok alias =>
        let req :=
          {| ExecuteMultiFetchAsDBARequest.TabletAlias := alias;
             ExecuteMultiFetchAsDBARequest.Sql := cobra.Arg cmd 1;
             ExecuteMultiFetchAsDBARequest.MaxRows :=
               DBAOptions.MaxRows (executeMultiFetchAsDBAOptions g);
             ExecuteMultiFetchAsDBARequest.DisableBinlogs :=
               DBAOptions.DisableBinlogs (executeMultiFetchAsDBAOptions g);
             ExecuteMultiFetchAsDBARequest.ReloadSchema :=
               DBAOptions.ReloadSchema (executeMultiFetchAsDBAOptions g) |} in
        let sent :=
          [ EvParseTabletAlias token; EvFinishedParsing (cobra.Use cmd);
            EvRemoteCall (ReqExecuteMultiFetchAsDBA req) ] in
        match vtctldclient.ExecuteMultiFetchAsDBA client req with
        | Err e => (Err e, sent)
        | Ok resp =>
            let qrs :=
              map Proto3ToResult
                (ExecuteMultiFetchAsDBAResponse.Results resp) in
            if DBAOptions.JSON (executeMultiFetchAsDBAOptions g)
            then match MarshalJSON (AnyResults qrs) with
                 | Err e => (Err e, sent ++ [EvMarshalJSON (AnyResults qrs)])
                 | Ok data =>
                     (Ok tt,
                      sent ++ [ EvMarshalJSON (AnyResults qrs);
                                EvPrintf (data ++ newline)%string ])
                 end
            else (Ok tt, sent ++ map EvWriteQueryResultTable qrs)
        end
    end.
Proof.
  unfold exec, commandExecuteMultiFetchAsDBA, bind,
    topoproto_ParseTabletAlias, cli_FinishedParsing,
    client_ExecuteMultiFetchAsDBA, cli_MarshalJSON, fmt_Printf, emit, reply,
    ret; simpl.
  destruct (ParseTabletAlias (cobra.Arg cmd 0)) as [alias|e];
    [|reflexivity].
  destruct (vtctldclient.ExecuteMultiFetchAsDBA client _) as [resp|e];
    [|reflexivity].
  rewrite append_loop_is_map; simpl.
  destruct (DBAOptions.JSON (executeMultiFetchAsDBAOptions g)).
  - destruct (MarshalJSON _); reflexivity.
  - rewrite table_loop; reflexivity.
Qed.

Lemma run_ExecuteFetchAsApp (g : Globals) (cmd : cobra.Command)
  (args : list string) :
  exec Result Transactions
    (commandExecuteFetchAsApp QueryResult Result Transactions
       Proto3ToResult ParseTabletAlias client MarshalJSON g cmd args)
  = let token := cobra.Arg cmd 0 in
    match ParseTabletAlias token with
    | Err e => (Err e, [EvParseTabletAlias token])
    | Ok alias =>
        let req :=
          {| ExecuteFetchAsAppRequest.TabletAlias := alias;
             ExecuteFetchAsAppRequest.Query := cobra.Arg cmd 1;
             ExecuteFetchAsAppRequest.MaxRows :=
               AppOptions.MaxRows (executeFetchAsAppOptions g);
             ExecuteFetchAsAppRequest.UsePool :=
               AppOptions.UsePool (executeFetchAsAppOptions g) |} in
        let sent :=
          [ EvParseTabletAlias token; EvFinishedParsing (cobra.Use cmd);
            EvRemoteCall (ReqExecuteFetchAsApp req) ] in
        match vtctldclient.ExecuteFetchAsApp client req with
        | Err e => (Err e, sent)
        | Ok resp =>
            let qr :=
              Proto3ToResult (ExecuteFetchAsAppResponse.Result resp) in
            if AppOptions.JSON (executeFetchAsAppOptions g)
            then match MarshalJSON (AnyResult qr) with
                 | Err e => (Err e, sent ++ [EvMarshalJSON (AnyResult qr)])
                 | Ok data =>
                     (Ok tt,
                      sent ++ [ EvMarshalJSON (AnyResult qr);
                                EvPrintf (data ++ newline)%string ])
                 end
            else (Ok tt, sent ++ [EvWriteQueryResultTable qr])
        end
    end.
Proof.
  unfold exec, commandExecuteFetchAsApp, bind, topoproto_ParseTabletAlias,
    cli_FinishedParsing, client_ExecuteFetchAsApp, cli_MarshalJSON,
    fmt_Printf, cli_WriteQueryResultTable, emit, reply, ret; simpl.
  destruct (ParseTabletAlias (cobra.Arg cmd 0)) as [alias|e];
    [|reflexivity].
  destruct (vtctldclient.ExecuteFetchAsApp client _) as [resp|e];
    [|reflexivity].
  destruct (AppOptions.JSON (executeFetchAsAppOptions g));
    [destruct (MarshalJSON _)|]; reflexivity.
Qed.

Lemma run_ExecuteFetchAsDBA (g : Globals) (cmd : cobra.Command)
  (args : list string) :
  exec Result Transactions
    (commandExecuteFetchAsDBA QueryResult Result Transactions
       Proto3ToResult ParseTabletAlias client MarshalJSON g cmd args)
  = let token := cobra.Arg cmd 0 in
    match ParseTabletAlias token with
    | Err e => (Err e, [EvParseTabletAlias token])
    | Ok alias =>
        let req :=
          {| ExecuteFetchAsDBARequest.TabletAlias := alias;
             ExecuteFetchAsDBARequest.Query := cobra.Arg cmd 1;
             ExecuteFetchAsDBARequest.MaxRows :=
               DBAOptions.MaxRows (executeFetchAsDBAOptions g);
             ExecuteFetchAsDBARequest.DisableBinlogs :=
               DBAOptions.DisableBinlogs (executeFetchAsDBAOptions g);
             ExecuteFetchAsDBARequest.ReloadSchema :=
               DBAOptions.ReloadSchema (executeFetchAsDBAOptions g) |} in
        let sent :=
          [ EvParseTabletAlias token; EvFinishedParsing (cobra.Use cmd);
            EvRemoteCall (ReqExecuteFetchAsDBA req) ] in
        match vtctldclient.ExecuteFetchAsDBA client req with
        | Err e => (Err e, sent)
        | Ok resp =>
            let qr :=
              Proto3ToResult (ExecuteFetchAsDBAResponse.Result resp) in
            if DBAOptions.JSON (executeFetchAsDBAOptions g)
            then match MarshalJSON (AnyResult qr) with
                 | Err e => (Err e, sent ++ [EvMarshalJSON (AnyResult qr)])
                 | Ok data =>
                     (Ok tt,
                      sent ++ [ EvMarshalJSON (AnyResult qr);
                                EvPrintf (data ++ newline)%string ])
                 end
            else (Ok tt, sent ++ [EvWriteQueryResultTable qr])
        end
    end.
Proof.
  unfold exec, commandExecuteFetchAsDBA, bind, topoproto_ParseTabletAlias,
    cli_FinishedParsing, client_ExecuteFetchAsDBA, cli_MarshalJSON,
    fmt_Printf, cli_WriteQueryResultTable, emit, reply, ret; simpl.
  destruct (ParseTabletAlias (cobra.Arg cmd 0)) as [alias|e];
    [|reflexivity].
  destruct (vtctldclient.ExecuteFetchAsDBA client _) as [resp|e];
    [|reflexivity].
  destruct (DBAOptions.JSON (executeFetchAsDBAOptions g));
    [destruct (MarshalJSON _)|]; reflexivity.
Qed.

Lemma run_GetUnresolvedTransactions (g : Globals) (cmd : cobra.Command)
  (args : list string) :
  exec Result Transactions
    (commandGetUnresolvedTransactions QueryResult Result Transactions
       client MarshalJSON g cmd args)
  = let req :=
      {| GetUnresolvedTransactionsRequest.Keyspace := cobra.Arg cmd 0 |} in
    let sent :=
      [ EvFinishedParsing (cobra.Use cmd);
        EvRemoteCall (ReqGetUnresolvedTransactions req) ] in
    match vtctldclient.GetUnresolvedTransactions client req with
    | Err e => (Err e, sent)
    | Ok resp =>
        let obj :=
          AnyTransactions
            (GetUnresolvedTransactionsResponse.Transactions resp) in
        match MarshalJSON obj with
        | Err e => (Err e, sent ++ [EvMarshalJSON obj])
        | Ok data =>
            (Ok tt,
             sent ++ [EvMarshalJSON obj; EvPrintf (data ++ newline)%string])
        end
    end.
Proof.
  unfold exec, commandGetUnresolvedTransactions, bind, cli_FinishedParsing,
    client_GetUnresolvedTransactions, cli_MarshalJSON, fmt_Printf, emit,
    reply, ret; simpl.
  destruct (vtctldclient.GetUnresolvedTransactions client _) as [resp|e];
    [|reflexivity].
  destruct (MarshalJSON _); reflexivity.
Qed.

(** *** Reading a run *)

(** Unfold one run of the binary into the cases of its handler. *)
Ltac unfold_run :=
  unfold result, trace, RunE;
  rewrite ?run_ExecuteFetchAsApp, ?run_ExecuteFetchAsDBA,
    ?run_ExecuteMultiFetchAsDBA, ?run_GetUnresolvedTransactions;
  cbv zeta.

(** Split on what the collaborators answered. *)
Ltac answers :=
  repeat match goal with
    | |- context [match ParseTabletAlias ?tok with _ => _ end] =>
        let P := fresh "Parsed" in
        destruct (ParseTabletAlias tok) as [?alias|?e] eqn:P
    | |- context [match vtctldclient.ExecuteFetchAsApp client ?r with
                  | _ => _ end] =>
        let R := fresh "Replied" in
        destruct (vtctldclient.ExecuteFetchAsApp client r)
          as [?resp|?e] eqn:R
    | |- context [match vtctldclient.ExecuteFetchAsDBA client ?r with
                  | _ => _ end] =>
        let R := fresh "Replied" in
        destruct (vtctldclient.ExecuteFetchAsDBA client r)
          as [?resp|?e] eqn:R
    | |- context [match vtctldclient.ExecuteMultiFetchAsDBA client ?r with
                  | _ => _ end] =>
        let R := fresh "Replied" in
        destruct (vtctldclient.ExecuteMultiFetchAsDBA client r)
          as [?resp|?e] eqn:R
    | |- context [match vtctldclient.GetUnresolvedTransactions client ?r with
                  | _ => _ end] =>
        let R := fresh "Replied" in
        destruct (vtctldclient.GetUnresolvedTransactions client r)
          as [?resp|?e] eqn:R
    | |- context [if pflag.Set_ ?d ?fl then _ else _] =>
        let J := fresh "Json" in
        destruct (pflag.Set_ d fl) eqn:J
    | |- context [match MarshalJSON ?obj with _ => _ end] =>
        let E := fresh "Encoded" in
        destruct (MarshalJSON obj) as [?data|?e] eqn:E
    end.

(** Find an event in the trace of a case. *)
Ltac locate H :=
  simpl in H;
  repeat match type of H with
    | In _ (_ ++ _) => apply in_app_or in H
    | _ \/ _ => destruct H as [H|H]
    | In _ (map EvWriteQueryResultTable _) =>
        apply In_tables in H; destruct H as [? H]
    | In _ (_ :: _) => simpl in H
    | In _ [] => destruct H
    | False => destruct H
    | _ = _ => first [discriminate H | injection H as H; try subst]
    end.

(** *** What the specification promises *)

(** C2. In every run of a fetch command, a request that goes to the
    remote side carries in [MaxRows] the value given with [--max-rows],
    and 10000 when the flag was not given. *)
Theorem max_rows_is_option_or_default (inv : Invocation) (req : Request) :
  isFetch inv = true ->
  In (EvRemoteCall req) (traceOf inv) ->
  field "MaxRows" (fieldsOf req)
  = Some (VInt64 match suppliedMaxRows inv with
                 | Some rows => rows
                 | None => 10000%Z
                 end).
Proof.
  intros Fetch Sent; revert Sent.
  destruct inv as [fl args|fl args|fl args|args]; try discriminate Fetch;
    unfold_run; simpl; answers; intros Sent; locate Sent;
    simpl; unfold pflag.Set_, pflag.Int64Var;
    match goal with
    | |- context [match ?supplied with Some _ => _ | None => _ end] =>
        destruct supplied; reflexivity
    end.
Qed.

(** C3. Field isolation.  A request of ExecuteFetchAsDBA or
    ExecuteMultiFetchAsDBA carries the alias, the statement text, the row
    cap and its own two fields [DisableBinlogs] and [ReloadSchema], set
    from its own flags, and no [UsePool]; a request of ExecuteFetchAsApp
    carries the alias, the query, the row cap and its own [UsePool], and
    neither [DisableBinlogs] nor [ReloadSchema]. *)
Theorem tier_fields_are_isolated (inv : Invocation) (req : Request) :
  In (EvRemoteCall req) (traceOf inv) ->
  match inv with
  | InvExecuteFetchAsApp fl _ =>
      map fst (fieldsOf req) = ["TabletAlias"; "Query"; "MaxRows"; "UsePool"]
      /\ carries req "DisableBinlogs" = false
      /\ carries req "ReloadSchema" = false
      /\ field "UsePool" (fieldsOf req)
         = Some (VBool (pflag.Set_ false (AppFlags.use_pool fl)))
  | InvExecuteFetchAsDBA fl _ =>
      map fst (fieldsOf req)
      = ["TabletAlias"; "Query"; "MaxRows"; "DisableBinlogs"; "ReloadSchema"]
      /\ carries req "UsePool" = false
      /\ field "DisableBinlogs" (fieldsOf req)
         = Some (VBool (pflag.Set_ false (DBAFlags.disable_binlogs fl)))
      /\ field "ReloadSchema" (fieldsOf req)
         = Some (VBool (pflag.Set_ false (DBAFlags.reload_schema fl)))
  | InvExecuteMultiFetchAsDBA fl _ =>
      map fst (fieldsOf req)
      = ["TabletAlias"; "Sql"; "MaxRows"; "DisableBinlogs"; "ReloadSchema"]
      /\ carries req "UsePool" = false
      /\ field "DisableBinlogs" (fieldsOf req)
         = Some (VBool (pflag.Set_ false (DBAFlags.disable_binlogs fl)))
      /\ field "ReloadSchema" (fieldsOf req)
         = Some (VBool (pflag.Set_ false (DBAFlags.reload_schema fl)))
  | InvGetUnresolvedTransactions _ =>
      map fst (fieldsOf req) = ["Keyspace"]
  end.
Proof.
  destruct inv as [fl args|fl args|fl args|args];
    unfold_run; simpl; answers; intros Sent; locate Sent;
    simpl; repeat split; reflexivity.
Qed.

(** C7. When the remote side answers the request of a run with an
    error, the handler returns that very error, nothing has been written
    to the output, and the request was sent once. *)
Theorem remote_error_is_returned_verbatim (inv : Invocation) (req : Request)
  (e : error) :
  In (EvRemoteCall req) (traceOf inv) ->
  remoteError QueryResult Transactions client req = Some e ->
  resultOf inv = Err e
  /\ outputs Result Transactions (traceOf inv) = []
  /\ remoteCalls Result Transactions (traceOf inv) = [req].
Proof.
  destruct inv as [fl args|fl args|fl args|args];
    unfold_run; simpl; answers; intros Sent Failed; locate Sent;
    simpl in Failed;
    repeat match goal with
      | R : ?call = _, F : context [?call] |- _ => rewrite R in F
      end;
    try discriminate Failed;
    injection Failed as <-; simpl; auto.
Qed.

(** C8. When the encoder refuses the value a run hands to it, the
    handler returns the encoder's error and nothing has been written to
    the output. *)
Theorem encoding_error_is_surfaced (inv : Invocation)
  (obj : any Result Transactions) (e : error) :
  In (EvMarshalJSON obj) (traceOf inv) ->
  MarshalJSON obj = Err e ->
  resultOf inv = Err e /\ outputs Result Transactions (traceOf inv) = [].
Proof.
  destruct inv as [fl args|fl args|fl args|args];
    unfold_run; simpl; answers; intros Called Refused; locate Called;
    try congruence;
    rewrite Refused in *;
    match goal with
    | H : Err _ = Err _ |- _ => injection H as <-
    end; simpl; auto.
Qed.

(** C10. In table mode (no [--json], or [--json=false]), a run of a
    fetch command whose remote call succeeded returns nil, and the
    encoder was not called. *)
Theorem table_mode_cannot_fail_after_dispatch (inv : Invocation)
  (req : Request) :
  isFetch inv = true ->
  pflag.Set_ false (suppliedJSON inv) = false ->
  In (EvRemoteCall req) (traceOf inv) ->
  remoteError QueryResult Transactions client req = None ->
  resultOf inv = Ok tt
  /\ forall obj, ~ In (EvMarshalJSON obj) (traceOf inv).
Proof.
  intros Fetch Table; revert Table.
  destruct inv as [fl args|fl args|fl args|args]; try discriminate Fetch;
    simpl suppliedJSON; intros Table;
    unfold_run; simpl; unfold pflag.BoolVarP; rewrite ?Table; answers;
    intros Sent Succeeded;
    locate Sent; simpl in Succeeded;
    repeat match goal with
      | R : ?call = _, F : context [?call] |- _ => rewrite R in F
      end;
    try discriminate Succeeded;
    (split; [reflexivity|]); intros obj Called; locate Called.
Qed.

(** ExecuteMultiFetchAsDBA with [--json], whatever the encoder: when the
    reply holds N results, the encoder is handed one slice of exactly N
    results, the i-th being the i-th result of the reply, and what it
    returns is written in a single write, followed by a line feed. *)
Lemma multi_json_hands_over_the_ordered_slice (fl : DBAFlags.t)
  (args : list string) (req : ExecuteMultiFetchAsDBARequest.t)
  (resp : ExecuteMultiFetchAsDBAResponse.t QueryResult) (data : string) :
  pflag.Set_ false (DBAFlags.json fl) = true ->
  In (EvRemoteCall (ReqExecuteMultiFetchAsDBA req))
    (traceOf (InvExecuteMultiFetchAsDBA fl args)) ->
  vtctldclient.ExecuteMultiFetchAsDBA client req = Ok resp ->
  MarshalJSON
    (AnyResults
       (map Proto3ToResult (ExecuteMultiFetchAsDBAResponse.Results resp)))
  = Ok data ->
  exists qrs : list Result,
    length qrs = length (ExecuteMultiFetchAsDBAResponse.Results resp)
    /\ (forall i,
          nth_error qrs i
          = option_map Proto3ToResult
              (nth_error (ExecuteMultiFetchAsDBAResponse.Results resp) i))
    /\ In (EvMarshalJSON (AnyResults qrs))
         (traceOf (InvExecuteMultiFetchAsDBA fl args))
    /\ MarshalJSON (AnyResults qrs) = Ok data
    /\ outputs Result Transactions
         (traceOf (InvExecuteMultiFetchAsDBA fl args))
       = [EvPrintf (data ++ newline)%string]
    /\ resultOf (InvExecuteMultiFetchAsDBA fl args) = Ok tt.
Proof.
  intros Json.
  unfold_run; simpl; unfold pflag.BoolVarP; rewrite Json; answers;
    intros Sent Reply Document; locate Sent;
    try congruence.
  rewrite Reply in Replied; injection Replied as <-.
  rewrite Document in Encoded; injection Encoded as <-.
  exists (map Proto3ToResult (ExecuteMultiFetchAsDBAResponse.Results resp)).
  repeat split.
  - apply length_map.
  - intros i; apply nth_error_map.
  - simpl; auto.
  - exact Document.
Qed.

(** C5. ExecuteMultiFetchAsDBA in table mode: when the reply holds N
    results, the output is exactly N table writes, the i-th being the
    table of the i-th result of the reply. *)
Theorem multi_table_is_one_block_per_result (fl : DBAFlags.t)
  (args : list string) (req : ExecuteMultiFetchAsDBARequest.t)
  (resp : ExecuteMultiFetchAsDBAResponse.t QueryResult) :
  pflag.Set_ false (DBAFlags.json fl) = false ->
  In (EvRemoteCall (ReqExecuteMultiFetchAsDBA req))
    (traceOf (InvExecuteMultiFetchAsDBA fl args)) ->
  vtctldclient.ExecuteMultiFetchAsDBA client req = Ok resp ->
  outputs Result Transactions (traceOf (InvExecuteMultiFetchAsDBA fl args))
  = map (fun r => EvWriteQueryResultTable (Proto3ToResult r))
      (ExecuteMultiFetchAsDBAResponse.Results resp)
  /\ length
       (outputs Result Transactions
          (traceOf (InvExecuteMultiFetchAsDBA fl args)))
     = length (ExecuteMultiFetchAsDBAResponse.Results resp)
  /\ resultOf (InvExecuteMultiFetchAsDBA fl args) = Ok tt.
Proof.
  intros Table.
  unfold_run; simpl; unfold pflag.BoolVarP; rewrite Table; answers;
    intros Sent Reply; locate Sent; try congruence.
  rewrite Reply in Replied; injection Replied as <-.
  unfold outputs; simpl.
  fold (outputs Result Transactions
          (map EvWriteQueryResultTable
             (map Proto3ToResult
                (ExecuteMultiFetchAsDBAResponse.Results resp)))).
  rewrite outputs_tables, map_map.
  repeat split. apply length_map.
Qed.

(** C6. GetUnresolvedTransactions sends its first positional argument
    as the keyspace, whatever it is (the empty string too), in the one
    request it makes; no run of it writes a table; and when the remote
    side replies, the transaction list of the reply goes to the encoder
    and the document comes out as one line. *)
Theorem unresolved_transactions_are_always_a_document (args : list string) :
  remoteCalls Result Transactions
    (traceOf (InvGetUnresolvedTransactions args))
  = [ReqGetUnresolvedTransactions
       {| GetUnresolvedTransactionsRequest.Keyspace :=
            nth 0 args EmptyString |}]
  /\ (forall qr,
        ~ In (EvWriteQueryResultTable qr)
            (traceOf (InvGetUnresolvedTransactions args)))
  /\ (forall resp,
        vtctldclient.GetUnresolvedTransactions client
          {| GetUnresolvedTransactionsRequest.Keyspace :=
               nth 0 args EmptyString |} = Ok resp ->
        In (EvMarshalJSON
              (AnyTransactions
                 (GetUnresolvedTransactionsResponse.Transactions resp)))
          (traceOf (InvGetUnresolvedTransactions args))
        /\ forall data,
             MarshalJSON
               (AnyTransactions
                  (GetUnresolvedTransactionsResponse.Transactions resp))
             = Ok data ->
             resultOf (InvGetUnresolvedTransactions args) = Ok tt
             /\ outputs Result Transactions
                  (traceOf (InvGetUnresolvedTransactions args))
                = [EvPrintf (data ++ newline)%string]).
Proof.
  unfold_run; unfold cobra.Arg; simpl.
  split; [|split].
  - answers; reflexivity.
  - intros qr; answers; intros Table; locate Table.
  - intros resp Reply; rewrite Reply.
    split.
    + answers; simpl; auto.
    + intros data Document; rewrite Document; simpl; auto.
Qed.

(** A fetch command whose alias does not parse returns the parser's
    error straight away: the parser was called and nothing else was. *)
Lemma parse_error_short_circuits (inv : Invocation) (e : error) :
  isFetch inv = true ->
  ParseTabletAlias (nth 0 (positional inv) EmptyString) = Err e ->
  resultOf inv = Err e
  /\ traceOf inv = [EvParseTabletAlias (nth 0 (positional inv) EmptyString)].
Proof.
  intros Fetch.
  destruct inv as [fl args|fl args|fl args|args]; try discriminate Fetch;
    unfold_run; unfold cobra.Arg; simpl; intros Malformed;
    rewrite Malformed; auto.
Qed.

(** C9. A run that gets past the parsing of its identity passes the
    checkpoint exactly once, and the one remote call comes right after
    it; in a fetch command the only thing before the checkpoint is the
    parsing of the alias.  A run whose alias does not parse never
    reaches the checkpoint and makes no remote call. *)
Theorem checkpoint_once_and_before_remote_call (inv : Invocation) :
  if identityParses ParseTabletAlias inv
  then finishedParsingCount Result Transactions (traceOf inv) = 1
       /\ exists use req post,
            traceOf inv
            = (if isFetch inv
               then [EvParseTabletAlias (nth 0 (positional inv) EmptyString)]
               else [])
              ++ EvFinishedParsing use :: EvRemoteCall req :: post
            /\ finishedParsingCount Result Transactions post = 0
            /\ remoteCalls Result Transactions post = []
  else finishedParsingCount Result Transactions (traceOf inv) = 0
       /\ remoteCalls Result Transactions (traceOf inv) = []
       /\ traceOf inv
          = [EvParseTabletAlias (nth 0 (positional inv) EmptyString)].
Proof.
  unfold identityParses.
  destruct inv as [fl args|fl args|fl args|args];
    unfold_run; unfold cobra.Arg; simpl;
    try (destruct (ParseTabletAlias (nth 0 args EmptyString))
           as [alias|e] eqn:Parsed; simpl; [|auto]);
    answers; simpl;
    rewrite ?finishedParsingCount_tables;
    (split; [reflexivity|]);
    do 3 eexists; (split; [reflexivity|]);
    simpl; rewrite ?finishedParsingCount_tables, ?remoteCalls_tables; auto.
Qed.

(** *** More of what the handlers do *)

(** X1. ExecuteFetchAsApp and ExecuteFetchAsDBA with [--json]: when the
    remote side replies and the encoder accepts, the encoder was handed
    the one converted result of the reply (not a slice of one), the
    document is the only thing written, as one line, and nil comes back. *)
Theorem single_fetch_json_is_one_document (inv : Invocation) (req : Request)
  (qr : QueryResult) (data : string) :
  pflag.Set_ false (suppliedJSON inv) = true ->
  In (EvRemoteCall req) (traceOf inv) ->
  singleReply QueryResult Transactions client req = Some qr ->
  MarshalJSON (AnyResult (Proto3ToResult qr)) = Ok data ->
  resultOf inv = Ok tt
  /\ In (EvMarshalJSON (AnyResult (Proto3ToResult qr))) (traceOf inv)
  /\ outputs Result Transactions (traceOf inv)
     = [EvPrintf (data ++ newline)%string].
Proof.
  destruct inv as [fl args|fl args|fl args|args];
    simpl suppliedJSON; intros Json;
    unfold_run; simpl; unfold pflag.BoolVarP; rewrite ?Json; answers;
    intros Sent Reply Document; locate Sent; simpl in Reply;
    try discriminate Reply;
    rewrite Replied in Reply; try discriminate Reply;
    injection Reply as <-;
    rewrite Document in Encoded; try discriminate Encoded;
    injection Encoded as <-; simpl; intuition auto.
Qed.

(** X2. ExecuteFetchAsApp and ExecuteFetchAsDBA in table mode: when the
    remote side replies, the table of the one converted result is the only
    thing written and nil comes back. *)
Theorem single_fetch_table_is_one_block (inv : Invocation) (req : Request)
  (qr : QueryResult) :
  pflag.Set_ false (suppliedJSON inv) = false ->
  In (EvRemoteCall req) (traceOf inv) ->
  singleReply QueryResult Transactions client req = Some qr ->
  resultOf inv = Ok tt
  /\ outputs Result Transactions (traceOf inv)
     = [EvWriteQueryResultTable (Proto3ToResult qr)].
Proof.
  destruct inv as [fl args|fl args|fl args|args];
    simpl suppliedJSON; intros Table;
    unfold_run; simpl; unfold pflag.BoolVarP; rewrite ?Table; answers;
    intros Sent Reply; locate Sent; simpl in Reply;
    try discriminate Reply;
    rewrite Replied in Reply; try discriminate Reply;
    injection Reply as <-; simpl; auto.
Qed.

(** X3. A run that returns an error has written nothing, whichever of the
    four commands ran and wherever it failed. *)
Theorem failed_run_writes_nothing (inv : Invocation) (e : error) :
  resultOf inv = Err e ->
  outputs Result Transactions (traceOf inv) = [].
Proof.
  destruct inv as [fl args|fl args|fl args|args];
    unfold_run; simpl; answers; simpl; intros Failed;
    try discriminate Failed; reflexivity.
Qed.

(** X4. The handlers make up no error of their own and wrap none: an
    error a run returns is the parser's for the alias, or the remote
    side's for the request that was sent, or the encoder's for a value it
    was handed. *)
Theorem returned_error_comes_from_a_collaborator (inv : Invocation)
  (e : error) :
  resultOf inv = Err e ->
  (isFetch inv = true
   /\ ParseTabletAlias (nth 0 (positional inv) EmptyString) = Err e)
  \/ (exists req,
        In (EvRemoteCall req) (traceOf inv)
        /\ remoteError QueryResult Transactions client req = Some e)
  \/ (exists obj,
        In (EvMarshalJSON obj) (traceOf inv) /\ MarshalJSON obj = Err e).
Proof.
  destruct inv as [fl args|fl args|fl args|args];
    unfold_run; unfold cobra.Arg; simpl; answers; simpl; intros Failed;
    try discriminate Failed; injection Failed as <-.
  all: first
    [ left; split; reflexivity
    | right; left; eexists; split;
      [ simpl; right; right; left; reflexivity
      | simpl; unfold cobra.Arg; simpl;
        match goal with R : _ = Err _ |- _ => rewrite R; reflexivity end ]
    | right; left; eexists; split;
      [ simpl; right; left; reflexivity
      | simpl; unfold cobra.Arg; simpl;
        match goal with R : _ = Err _ |- _ => rewrite R; reflexivity end ]
    | right; right; eexists; split; [simpl; eauto 6 | assumption] ].
Qed.

(** X5. Nothing is written before the remote side has answered without
    an error: a run with any output at all made exactly one remote call,
    and that call succeeded. *)
Theorem output_only_after_successful_reply (inv : Invocation) (ev : Ev) :
  In ev (outputs Result Transactions (traceOf inv)) ->
  exists req,
    remoteCalls Result Transactions (traceOf inv) = [req]
    /\ remoteError QueryResult Transactions client req = None.
Proof.
  destruct inv as [fl args|fl args|fl args|args];
    unfold_run; simpl; answers; simpl; intros Written;
    try contradiction;
    eexists; rewrite ?remoteCalls_tables;
    (split; [reflexivity|]); simpl;
    match goal with R : _ = Ok _ |- _ => rewrite R; reflexivity end.
Qed.

(** X6. A run that returns nil made exactly one remote call, and that
    call succeeded. *)
Theorem success_means_one_successful_remote_call (inv : Invocation) :
  resultOf inv = Ok tt ->
  exists req,
    remoteCalls Result Transactions (traceOf inv) = [req]
    /\ remoteError QueryResult Transactions client req = None.
Proof.
  destruct inv as [fl args|fl args|fl args|args];
    unfold_run; simpl; answers; simpl; intros Done;
    try discriminate Done;
    eexists; rewrite ?remoteCalls_tables;
    (split; [reflexivity|]); simpl;
    match goal with R : _ = Ok _ |- _ => rewrite R; reflexivity end.
Qed.


(** X8. The output mode plays no part in what is asked of the remote
    side: changing [--json] on a command line changes no request. *)
Theorem json_flag_does_not_change_the_request (json : option bool)
  (inv : Invocation) :
  remoteCalls Result Transactions (traceOf (withJSON json inv))
  = remoteCalls Result Transactions (traceOf inv).
Proof.
  destruct inv as [fl args|fl args|fl args|args];
    unfold trace, RunE; simpl withJSON;
    repeat first
      [ rewrite run_ExecuteFetchAsApp | rewrite run_ExecuteFetchAsDBA
      | rewrite run_ExecuteMultiFetchAsDBA
      | rewrite run_GetUnresolvedTransactions ];
    cbv zeta; simpl; answers; simpl;
    rewrite ?remoteCalls_tables; reflexivity.
Qed.

(** X9. The positional arguments go out as they came in: the request of
    a fetch command carries the alias the parser made of the first
    argument and, as its statement text, the second argument unchanged
    (the empty string if there is none). *)
Theorem positional_arguments_are_forwarded (inv : Invocation)
  (req : Request) :
  isFetch inv = true ->
  In (EvRemoteCall req) (traceOf inv) ->
  exists alias,
    ParseTabletAlias (nth 0 (positional inv) EmptyString) = Ok alias
    /\ field "TabletAlias" (fieldsOf req) = Some (VAlias alias)
    /\ field (statementField inv) (fieldsOf req)
       = Some (VString (nth 1 (positional inv) EmptyString)).
Proof.
  intros Fetch.
  destruct inv as [fl args|fl args|fl args|args]; try discriminate Fetch;
    unfold_run; unfold cobra.Arg; simpl; answers; intros Sent; locate Sent;
    eexists; repeat split; reflexivity.
Qed.

(** X10. The only lines a handler prints are documents: a printed line
    is what the encoder returned for a value the run handed to it,
    followed by a line feed. *)
Theorem printed_line_is_an_encoded_document (inv : Invocation)
  (line : string) :
  In (EvPrintf line) (traceOf inv) ->
  exists obj data,
    In (EvMarshalJSON obj) (traceOf inv)
    /\ MarshalJSON obj = Ok data
    /\ line = (data ++ newline)%string.
Proof.
  destruct inv as [fl args|fl args|fl args|args];
    unfold_run; simpl; answers; intros Printed; locate Printed;
    do 2 eexists; (split; [simpl; eauto 6|]);
    (split; [eassumption | reflexivity]).
Qed.

(** X11. An empty batch.  When the reply of ExecuteMultiFetchAsDBA holds
    no result, table mode writes nothing at all and returns nil, while
    [--json] still hands the empty slice to the encoder. *)
Theorem empty_batch_is_silent_in_table_mode (fl : DBAFlags.t)
  (args : list string) (req : ExecuteMultiFetchAsDBARequest.t)
  (resp : ExecuteMultiFetchAsDBAResponse.t QueryResult) :
  In (EvRemoteCall (ReqExecuteMultiFetchAsDBA req))
    (traceOf (InvExecuteMultiFetchAsDBA fl args)) ->
  vtctldclient.ExecuteMultiFetchAsDBA client req = Ok resp ->
  ExecuteMultiFetchAsDBAResponse.Results resp = [] ->
  if pflag.Set_ false (DBAFlags.json fl)
  then In (EvMarshalJSON (AnyResults []))
         (traceOf (InvExecuteMultiFetchAsDBA fl args))
  else resultOf (InvExecuteMultiFetchAsDBA fl args) = Ok tt
       /\ outputs Result Transactions
            (traceOf (InvExecuteMultiFetchAsDBA fl args)) = [].
Proof.
  unfold_run; simpl; unfold pflag.BoolVarP; answers;
    intros Sent Reply Empty; locate Sent; try congruence;
    rewrite Reply in Replied; injection Replied as <-;
    rewrite Empty; simpl; auto 6.
Qed.

(** X12. Behind the argument check of its declaration, a handler never
    falls back on the empty string: when a command line was handed to the
    handler and a request went out, the statement text (the keyspace, for
    GetUnresolvedTransactions) in it is an argument that was really
    given. *)
Theorem checked_arguments_are_really_given (inv : Invocation)
  (returned : outcome unit) (did : Trace Result Transactions)
  (req : Request) :
  Launch QueryResult Result Transactions Proto3ToResult ParseTabletAlias
    client MarshalJSON inv = Ran returned did ->
  In (EvRemoteCall req) did ->
  exists text,
    nth_error (positional inv) (statementIndex inv) = Some text
    /\ field (statementField inv) (fieldsOf req) = Some (VString text).
Proof.
  unfold Launch.
  destruct (Args inv (positional inv)) as [[accepts received]|] eqn:Checked;
    [discriminate|].
  intros Handed; injection Handed as <- <-; revert Checked.
  destruct inv as [fl args|fl args|fl args|args]; simpl;
    unfold ExactArgs;
    (destruct args as [|a0 [|a1 [|a2 rest]]]; simpl; try discriminate);
    intros _; unfold_run; unfold cobra.Arg; simpl; answers; intros Sent;
    locate Sent; eexists; split; reflexivity.
Qed.

End Runs.

(** ** The malformed alias *)

(** C1. With the alias parser of [topoproto], a run of ExecuteFetchAsApp,
    ExecuteFetchAsDBA or ExecuteMultiFetchAsDBA whose first positional
    argument is not a well-formed alias returns [MalformedIdentity]; the
    parser is the only thing that was called: no remote call, no parsing
    checkpoint, no output, and this for every value of the flags. *)
Theorem malformed_alias_stops_before_options_and_network
  (QueryResult Result Transactions : Type)
  (Proto3ToResult : QueryResult -> Result)
  (client : vtctldclient.VtctldClient QueryResult Transactions)
  (MarshalJSON : any Result Transactions -> outcome string)
  (inv : Invocation) :
  isFetch inv = true ->
  topoproto.wellFormed (nth 0 (positional inv) EmptyString) = false ->
  result QueryResult Result Transactions Proto3ToResult
    topoproto.ParseTabletAlias client MarshalJSON inv
  = Err (MalformedIdentity (nth 0 (positional inv) EmptyString))
  /\ trace QueryResult Result Transactions Proto3ToResult
       topoproto.ParseTabletAlias client MarshalJSON inv
     = [EvParseTabletAlias (nth 0 (positional inv) EmptyString)]
  /\ remoteCalls Result Transactions
       (trace QueryResult Result Transactions Proto3ToResult
          topoproto.ParseTabletAlias client MarshalJSON inv) = []
  /\ finishedParsingCount Result Transactions
       (trace QueryResult Result Transactions Proto3ToResult
          topoproto.ParseTabletAlias client MarshalJSON inv) = 0
  /\ outputs Result Transactions
       (trace QueryResult Result Transactions Proto3ToResult
          topoproto.ParseTabletAlias client MarshalJSON inv) = [].
Proof.
  intros Fetch Malformed.
  apply ParseTabletAlias_malformed in Malformed.
  destruct (parse_error_short_circuits QueryResult Result Transactions
              Proto3ToResult topoproto.ParseTabletAlias client MarshalJSON
              inv _ Fetch Malformed) as [Returned Called].
  rewrite Called; auto.
Qed.

(** ** The document of a batch *)




(** With no result in the reply the slice is nil, and what is written is
    the document of nothing, not an array. *)
Lemma multi_json_of_an_empty_reply
  (QueryResult Result Transactions : Type)
  (Proto3ToResult : QueryResult -> Result)
  (ParseTabletAlias : string -> outcome topodatapb.TabletAlias)
  (client : vtctldclient.VtctldClient QueryResult Transactions)
  (render : json.Value -> string)
  (resultDocument : Result -> outcome json.Value)
  (transactionsDocument : Transactions -> outcome json.Value)
  (fl : DBAFlags.t) (args : list string)
  (req : ExecuteMultiFetchAsDBARequest.t)
  (resp : ExecuteMultiFetchAsDBAResponse.t QueryResult) :
  pflag.Set_ false (DBAFlags.json fl) = true ->
  In (EvRemoteCall (ReqExecuteMultiFetchAsDBA req))
    (trace QueryResult Result Transactions Proto3ToResult ParseTabletAlias
       client
       (cli.MarshalJSON Result Transactions render resultDocument
          transactionsDocument)
       (InvExecuteMultiFetchAsDBA fl args)) ->
  vtctldclient.ExecuteMultiFetchAsDBA client req = Ok resp ->
  ExecuteMultiFetchAsDBAResponse.Results resp = [] ->
  outputs Result Transactions
    (trace QueryResult Result Transactions Proto3ToResult ParseTabletAlias
       client
       (cli.MarshalJSON Result Transactions render resultDocument
          transactionsDocument)
       (InvExecuteMultiFetchAsDBA fl args))
  = [EvPrintf (render json.Null ++ newline)%string].
Proof.
  intros Json Sent Reply Empty.
  destruct (multi_json_hands_over_the_ordered_slice
              QueryResult Result Transactions Proto3ToResult
              ParseTabletAlias client _ fl args req resp (render json.Null)
              Json Sent Reply)
    as (qrs & _ & _ & _ & _ & Written & _).
  - now rewrite Empty.
  - exact Written.
Qed.

(** ** The properties at work

    Each property that rests on a condition is run once in the world of
    [Fixture], on a command line that meets the condition. *)

Lemma malformed_alias_stops_before_options_and_network_witness :
  isFetch Fixture.dba_malformed = true
  /\ topoproto.wellFormed "not-an-alias" = false
  /\ Fixture.result Fixture.dba_malformed
     = Err (MalformedIdentity "not-an-alias")
  /\ Fixture.trace Fixture.dba_malformed = [EvParseTabletAlias "not-an-alias"].
Proof.
  split; [reflexivity|]. split; [reflexivity|].
  destruct (malformed_alias_stops_before_options_and_network
              Fixture.Table Fixture.Table Fixture.Transactions
              Fixture.Proto3ToResult Fixture.client Fixture.MarshalJSON
              Fixture.dba_malformed)
    as (Returned & Called & _).
  - reflexivity.
  - reflexivity.
  - split; [exact Returned | exact Called].
Defined.

Lemma max_rows_is_option_or_default_witness :
  isFetch Fixture.app_capped = true
  /\ In (EvRemoteCall Fixture.app_capped_request)
       (Fixture.trace Fixture.app_capped)
  /\ field "MaxRows" (fieldsOf Fixture.app_capped_request)
     = Some (VInt64 250).
Proof.
  split; [reflexivity|]. split; [vm_compute; auto|].
  apply (max_rows_is_option_or_default
           Fixture.Table Fixture.Table Fixture.Transactions
           Fixture.Proto3ToResult topoproto.ParseTabletAlias Fixture.client
           Fixture.MarshalJSON Fixture.app_capped).
  - reflexivity.
  - vm_compute; auto.
Defined.

Lemma tier_fields_are_isolated_witness :
  In (EvRemoteCall Fixture.dba_default_request)
    (Fixture.trace Fixture.dba_default)
  /\ map fst (fieldsOf Fixture.dba_default_request)
     = ["TabletAlias"; "Query"; "MaxRows"; "DisableBinlogs"; "ReloadSchema"]
  /\ carries Fixture.dba_default_request "UsePool" = false.
Proof.
  split; [vm_compute; auto|].
  destruct (tier_fields_are_isolated
              Fixture.Table Fixture.Table Fixture.Transactions
              Fixture.Proto3ToResult topoproto.ParseTabletAlias Fixture.client
              Fixture.MarshalJSON Fixture.dba_default
              Fixture.dba_default_request)
    as (Names & NoPool & _).
  - vm_compute; auto.
  - split; [exact Names | exact NoPool].
Defined.

Lemma multi_table_is_one_block_per_result_witness :
  pflag.Set_ false (DBAFlags.json (Fixture.multi_flags None)) = false
  /\ outputs Fixture.Table Fixture.Transactions
       (Fixture.trace
          (InvExecuteMultiFetchAsDBA (Fixture.multi_flags None)
             ["zone1-100"; "select 1; select 2"]))
     = [EvWriteQueryResultTable Fixture.one;
        EvWriteQueryResultTable Fixture.two].
Proof.
  split; [reflexivity|].
  destruct (multi_table_is_one_block_per_result
              Fixture.Table Fixture.Table Fixture.Transactions
              Fixture.Proto3ToResult topoproto.ParseTabletAlias Fixture.client
              Fixture.MarshalJSON (Fixture.multi_flags None)
              ["zone1-100"; "select 1; select 2"]
              (Fixture.multi_request "select 1; select 2")
              (ExecuteMultiFetchAsDBAResponse.mk [Fixture.one; Fixture.two]))
    as (Written & _).
  - reflexivity.
  - vm_compute; auto.
  - reflexivity.
  - exact Written.
Defined.

Lemma unresolved_transactions_are_always_a_document_witness :
  remoteCalls Fixture.Table Fixture.Transactions
    (Fixture.trace (InvGetUnresolvedTransactions ["ks1"]))
  = [ReqGetUnresolvedTransactions
       {| GetUnresolvedTransactionsRequest.Keyspace := "ks1" |}]
  /\ Fixture.result (InvGetUnresolvedTransactions ["ks1"]) = Ok tt
  /\ outputs Fixture.Table Fixture.Transactions
       (Fixture.trace (InvGetUnresolvedTransactions ["ks1"]))
     = [EvPrintf
          (Fixture.encArray [Fixture.encString "ks1:-80:7"] ++ newline)%string].
Proof.
  destruct (unresolved_transactions_are_always_a_document
              Fixture.Table Fixture.Table Fixture.Transactions
              Fixture.Proto3ToResult topoproto.ParseTabletAlias Fixture.client
              Fixture.MarshalJSON ["ks1"])
    as (Sent & _ & Document).
  split; [exact Sent|].
  destruct (Document (GetUnresolvedTransactionsResponse.mk ["ks1:-80:7"]))
    as (_ & Written).
  - reflexivity.
  - apply Written; reflexivity.
Defined.

Lemma remote_error_is_returned_verbatim_witness :
  In (EvRemoteCall
        (ReqExecuteMultiFetchAsDBA
           (Fixture.multi_request "select 1; select nothing from nowhere")))
    (Fixture.trace Fixture.multi_failing)
  /\ remoteError Fixture.Table Fixture.Transactions Fixture.client
       (ReqExecuteMultiFetchAsDBA
          (Fixture.multi_request "select 1; select nothing from nowhere"))
     = Some Fixture.refused
  /\ Fixture.result Fixture.multi_failing = Err Fixture.refused
  /\ outputs Fixture.Table Fixture.Transactions
       (Fixture.trace Fixture.multi_failing) = [].
Proof.
  split; [vm_compute; auto|]. split; [reflexivity|].
  destruct (remote_error_is_returned_verbatim
              Fixture.Table Fixture.Table Fixture.Transactions
              Fixture.Proto3ToResult topoproto.ParseTabletAlias Fixture.client
              Fixture.MarshalJSON Fixture.multi_failing
              (ReqExecuteMultiFetchAsDBA
                 (Fixture.multi_request
                    "select 1; select nothing from nowhere"))
              Fixture.refused)
    as (Returned & Silent & _).
  - vm_compute; auto.
  - reflexivity.
  - split; [exact Returned | exact Silent].
Defined.

Lemma encoding_error_is_surfaced_witness :
  In (EvMarshalJSON (AnyResult Fixture.ragged))
    (Fixture.trace Fixture.app_json_ragged)
  /\ Fixture.MarshalJSON (AnyResult Fixture.ragged)
     = Err (EncodingError "ragged row")
  /\ Fixture.result Fixture.app_json_ragged = Err (EncodingError "ragged row")
  /\ outputs Fixture.Table Fixture.Transactions
       (Fixture.trace Fixture.app_json_ragged) = [].
Proof.
  split; [vm_compute; auto|]. split; [reflexivity|].
  apply (encoding_error_is_surfaced
           Fixture.Table Fixture.Table Fixture.Transactions
           Fixture.Proto3ToResult topoproto.ParseTabletAlias Fixture.client
           Fixture.MarshalJSON Fixture.app_json_ragged
           (AnyResult Fixture.ragged)).
  - vm_compute; auto.
  - reflexivity.
Defined.

Lemma table_mode_cannot_fail_after_dispatch_witness :
  isFetch Fixture.dba_default = true
  /\ pflag.Set_ false (suppliedJSON Fixture.dba_default) = false
  /\ In (EvRemoteCall Fixture.dba_default_request)
       (Fixture.trace Fixture.dba_default)
  /\ remoteError Fixture.Table Fixture.Transactions Fixture.client
       Fixture.dba_default_request = None
  /\ Fixture.result Fixture.dba_default = Ok tt.
Proof.
  split; [reflexivity|]. split; [reflexivity|].
  split; [vm_compute; auto|]. split; [reflexivity|].
  apply (table_mode_cannot_fail_after_dispatch
           Fixture.Table Fixture.Table Fixture.Transactions
           Fixture.Proto3ToResult topoproto.ParseTabletAlias Fixture.client
           Fixture.MarshalJSON Fixture.dba_default
           Fixture.dba_default_request).
  - reflexivity.
  - reflexivity.
  - vm_compute; auto.
  - reflexivity.
Defined.

Lemma single_fetch_json_is_one_document_witness :
  pflag.Set_ false (suppliedJSON Samples.app_json) = true
  /\ In (EvRemoteCall Samples.app_request) (Fixture.trace Samples.app_json)
  /\ singleReply Fixture.Table Fixture.Transactions Fixture.client
       Samples.app_request = Some Fixture.one
  /\ Fixture.MarshalJSON (AnyResult Fixture.one)
     = Ok (Fixture.encTable Fixture.one)
  /\ Fixture.result Samples.app_json = Ok tt
  /\ outputs Fixture.Table Fixture.Transactions
       (Fixture.trace Samples.app_json)
     = [EvPrintf (Fixture.encTable Fixture.one ++ newline)%string].
Proof.
  split; [reflexivity|]. split; [vm_compute; auto|].
  split; [reflexivity|]. split; [reflexivity|].
  destruct (single_fetch_json_is_one_document
              Fixture.Table Fixture.Table Fixture.Transactions
              Fixture.Proto3ToResult topoproto.ParseTabletAlias Fixture.client
              Fixture.MarshalJSON Samples.app_json Samples.app_request
              Fixture.one (Fixture.encTable Fixture.one))
    as (Returned & _ & Written).
  - reflexivity.
  - vm_compute; auto.
  - reflexivity.
  - reflexivity.
  - split; [exact Returned | exact Written].
Defined.

Lemma single_fetch_table_is_one_block_witness :
  pflag.Set_ false (suppliedJSON Samples.app_table) = false
  /\ In (EvRemoteCall Samples.app_request) (Fixture.trace Samples.app_table)
  /\ singleReply Fixture.Table Fixture.Transactions Fixture.client
       Samples.app_request = Some Fixture.one
  /\ Fixture.result Samples.app_table = Ok tt
  /\ outputs Fixture.Table Fixture.Transactions
       (Fixture.trace Samples.app_table)
     = [EvWriteQueryResultTable Fixture.one].
Proof.
  split; [reflexivity|]. split; [vm_compute; auto|]. split; [reflexivity|].
  apply (single_fetch_table_is_one_block
           Fixture.Table Fixture.Table Fixture.Transactions
           Fixture.Proto3ToResult topoproto.ParseTabletAlias Fixture.client
           Fixture.MarshalJSON Samples.app_table Samples.app_request
           Fixture.one).
  - reflexivity.
  - vm_compute; auto.
  - reflexivity.
Defined.

Lemma failed_run_writes_nothing_witness :
  Fixture.result Fixture.app_json_ragged = Err (EncodingError "ragged row")
  /\ outputs Fixture.Table Fixture.Transactions
       (Fixture.trace Fixture.app_json_ragged) = [].
Proof.
  split; [reflexivity|].
  apply (failed_run_writes_nothing
           Fixture.Table Fixture.Table Fixture.Transactions
           Fixture.Proto3ToResult topoproto.ParseTabletAlias Fixture.client
           Fixture.MarshalJSON Fixture.app_json_ragged
           (EncodingError "ragged row")).
  reflexivity.
Defined.

Lemma returned_error_comes_from_a_collaborator_witness :
  Fixture.result Samples.dba_refused = Err Fixture.refused
  /\ ((isFetch Samples.dba_refused = true
       /\ topoproto.ParseTabletAlias "zone1-100" = Err Fixture.refused)
      \/ (exists req,
            In (EvRemoteCall req) (Fixture.trace Samples.dba_refused)
            /\ remoteError Fixture.Table Fixture.Transactions Fixture.client
                 req = Some Fixture.refused)
      \/ (exists obj,
            In (EvMarshalJSON obj) (Fixture.trace Samples.dba_refused)
            /\ Fixture.MarshalJSON obj = Err Fixture.refused)).
Proof.
  split; [reflexivity|].
  apply (returned_error_comes_from_a_collaborator
           Fixture.Table Fixture.Table Fixture.Transactions
           Fixture.Proto3ToResult topoproto.ParseTabletAlias Fixture.client
           Fixture.MarshalJSON Samples.dba_refused Fixture.refused).
  reflexivity.
Defined.

Lemma output_only_after_successful_reply_witness :
  In (EvWriteQueryResultTable Fixture.two)
    (outputs Fixture.Table Fixture.Transactions
       (Fixture.trace Samples.multi_table))
  /\ exists req,
       remoteCalls Fixture.Table Fixture.Transactions
         (Fixture.trace Samples.multi_table) = [req]
       /\ remoteError Fixture.Table Fixture.Transactions Fixture.client req
          = None.
Proof.
  split; [vm_compute; auto|].
  apply (output_only_after_successful_reply
           Fixture.Table Fixture.Table Fixture.Transactions
           Fixture.Proto3ToResult topoproto.ParseTabletAlias Fixture.client
           Fixture.MarshalJSON Samples.multi_table
           (EvWriteQueryResultTable Fixture.two)).
  vm_compute; auto.
Defined.

Lemma success_means_one_successful_remote_call_witness :
  Fixture.result Samples.transactions = Ok tt
  /\ exists req,
       remoteCalls Fixture.Table Fixture.Transactions
         (Fixture.trace Samples.transactions) = [req]
       /\ remoteError Fixture.Table Fixture.Transactions Fixture.client req
          = None.
Proof.
  split; [reflexivity|].
  apply (success_means_one_successful_remote_call
           Fixture.Table Fixture.Table Fixture.Transactions
           Fixture.Proto3ToResult topoproto.ParseTabletAlias Fixture.client
           Fixture.MarshalJSON Samples.transactions).
  reflexivity.
Defined.


Lemma positional_arguments_are_forwarded_witness :
  isFetch Fixture.dba_default = true
  /\ In (EvRemoteCall Fixture.dba_default_request)
       (Fixture.trace Fixture.dba_default)
  /\ exists alias,
       topoproto.ParseTabletAlias "zone1-100" = Ok alias
       /\ field "TabletAlias" (fieldsOf Fixture.dba_default_request)
          = Some (VAlias alias)
       /\ field "Query" (fieldsOf Fixture.dba_default_request)
          = Some (VString "select ragged").
Proof.
  split; [reflexivity|]. split; [vm_compute; auto|].
  apply (positional_arguments_are_forwarded
           Fixture.Table Fixture.Table Fixture.Transactions
           Fixture.Proto3ToResult topoproto.ParseTabletAlias Fixture.client
           Fixture.MarshalJSON Fixture.dba_default
           Fixture.dba_default_request).
  - reflexivity.
  - vm_compute; auto.
Defined.

Lemma printed_line_is_an_encoded_document_witness :
  In (EvPrintf (Fixture.encTable Fixture.one ++ newline)%string)
    (Fixture.trace Samples.app_json)
  /\ exists obj data,
       In (EvMarshalJSON obj) (Fixture.trace Samples.app_json)
       /\ Fixture.MarshalJSON obj = Ok data
       /\ (Fixture.encTable Fixture.one ++ newline)%string
          = (data ++ newline)%string.
Proof.
  split; [vm_compute; auto 6|].
  apply (printed_line_is_an_encoded_document
           Fixture.Table Fixture.Table Fixture.Transactions
           Fixture.Proto3ToResult topoproto.ParseTabletAlias Fixture.client
           Fixture.MarshalJSON Samples.app_json).
  vm_compute; auto 6.
Defined.

Lemma empty_batch_is_silent_in_table_mode_witness :
  In (EvRemoteCall (ReqExecuteMultiFetchAsDBA (Fixture.multi_request "")))
    (Fixture.trace (Samples.multi_empty None))
  /\ vtctldclient.ExecuteMultiFetchAsDBA Fixture.client
       (Fixture.multi_request "")
     = Ok (ExecuteMultiFetchAsDBAResponse.mk [])
  /\ Fixture.result (Samples.multi_empty None) = Ok tt
  /\ outputs Fixture.Table Fixture.Transactions
       (Fixture.trace (Samples.multi_empty None)) = [].
Proof.
  split; [vm_compute; auto|]. split; [reflexivity|].
  apply (empty_batch_is_silent_in_table_mode
           Fixture.Table Fixture.Table Fixture.Transactions
           Fixture.Proto3ToResult topoproto.ParseTabletAlias Fixture.client
           Fixture.MarshalJSON (Fixture.multi_flags None) ["zone1-100"; ""]
           (Fixture.multi_request "")
           (ExecuteMultiFetchAsDBAResponse.mk [])).
  - vm_compute; auto.
  - reflexivity.
  - reflexivity.
Defined.

Lemma checked_arguments_are_really_given_witness :
  Samples.launch Samples.transactions
  = Ran (Fixture.result Samples.transactions)
      (Fixture.trace Samples.transactions)
  /\ In (EvRemoteCall
           (ReqGetUnresolvedTransactions
              {| GetUnresolvedTransactionsRequest.Keyspace := "ks1" |}))
       (Fixture.trace Samples.transactions)
  /\ exists text,
       nth_error ["ks1"] 0 = Some text
       /\ field "Keyspace"
            (fieldsOf
               (ReqGetUnresolvedTransactions
                  {| GetUnresolvedTransactionsRequest.Keyspace := "ks1" |}))
          = Some (VString text).
Proof.
  split; [reflexivity|]. split; [vm_compute; auto|].
  apply (checked_arguments_are_really_given
           Fixture.Table Fixture.Table Fixture.Transactions
           Fixture.Proto3ToResult topoproto.ParseTabletAlias Fixture.client
           Fixture.MarshalJSON Samples.transactions
           (Fixture.result Samples.transactions)
           (Fixture.trace Samples.transactions)).
  - reflexivity.
  - vm_compute; auto.
Defined.


